(** * Weather station: normalisation, reading store, interval queries and
      daily rollups

    A shallow embedding of the core of [weather_station.py]:
    [normalise_for_resolution], [add_date_criteria_to_query],
    [perform_insert], [perform_update], [update_daily_temperatures] /
    [update_daily_pressure] and the [post] / [put] / [get] methods of the
    REST resources.

    Conventions of the embedding.
    - A naive [datetime] is a record of its calendar day (the proleptic
      ordinal, an integer) and its time-of-day fields.  Days are unbounded
      integers: the [MINYEAR]/[MAXYEAR] limits of the Python type are not
      part of the model.
    - Python integers are [Z].  The measured values are a type with the
      operations the code applies to them, see [Num]; Python's floats, the
      binary64 numbers, are the instance [Num_float], and the sample data are
      floats.
    - A table is the list of its rows in [rowid] order, which is the order
      in which SQLite scans a table that has no index.
    - An HTTP handler is a computation on the database connection which
      either returns or aborts with an error; what was committed before the
      abort stays committed. *)

From Stdlib Require Import ZArith List Bool Lia Permutation Sorted.
From Stdlib Require Import Uint63 PrimFloat.
Import ListNotations.
Open Scope Z_scope.

(** ** Dates and times *)

Record datetime : Type := mkdatetime
  { ordinal : Z;       (* the calendar day, [date.toordinal()] *)
    hour : Z;
    minute : Z;
    second : Z;
    microsecond : Z }.

(** The values the Python type can hold. *)
Definition valid_datetime (t : datetime) : Prop :=
  0 <= hour t < 24 /\ 0 <= minute t < 60 /\ 0 <= second t < 60 /\
  0 <= microsecond t < 1000000.

(** [t.date()] *)
Definition date (t : datetime) : Z := ordinal t.

(** [t.replace(microsecond=0, second=0)] *)
Definition replace_second0 (t : datetime) : datetime :=
  mkdatetime (ordinal t) (hour t) (minute t) 0 0.

(** [t.replace(hour=0, minute=0, second=0, microsecond=0)] *)
Definition replace_midnight (t : datetime) : datetime :=
  mkdatetime (ordinal t) 0 0 0 0.

(** [t + timedelta(minutes=delta)]: the minutes are added to the time of day
    and whole days carry into the calendar day. *)
Definition add_minutes (t : datetime) (delta : Z) : datetime :=
  let total := hour t * 60 + minute t + delta in
  mkdatetime (ordinal t + total / 1440)
             ((total mod 1440) / 60) ((total mod 1440) mod 60)
             (second t) (microsecond t).

(** [t + timedelta(days=n)] *)
Definition add_days (t : datetime) (n : Z) : datetime :=
  mkdatetime (ordinal t + n) (hour t) (minute t) (second t) (microsecond t).

(** Chronological comparison, field by field.  It is also the order of the
    ISO texts under which the timestamps are stored and compared. *)
Definition dt_compare (a b : datetime) : comparison :=
  match ordinal a ?= ordinal b with
  | Eq => match hour a ?= hour b with
          | Eq => match minute a ?= minute b with
                  | Eq => match second a ?= second b with
                          | Eq => microsecond a ?= microsecond b
                          | c => c
                          end
                  | c => c
                  end
          | c => c
          end
  | c => c
  end.

Definition dt_eqb (a b : datetime) : bool :=
  match dt_compare a b with Eq => true | _ => false end.
Definition dt_leb (a b : datetime) : bool :=
  match dt_compare a b with Gt => false | _ => true end.
Definition dt_ltb (a b : datetime) : bool :=
  match dt_compare a b with Lt => true | _ => false end.

(** Minutes elapsed since midnight of day 0. *)
Definition abs_minutes (t : datetime) : Z :=
  ordinal t * 1440 + hour t * 60 + minute t.

(** ** Errors *)

Inductive error : Type :=
| ValidationError            (* abort(400) *)
| NotFound                   (* abort(404) *)
| Conflict (existing_id : Z) (* abort(409, location=...) *)
| ZeroDivisionError
| OperationalError.          (* sqlite3: statement could not be prepared *)

Inductive result (A : Type) : Type :=
| Ok (a : A)
| Err (e : error).
Arguments Ok {A} a.
Arguments Err {A} e.

Definition rbind {A B} (r : result A) (f : A -> result B) : result B :=
  match r with Ok a => f a | Err e => Err e end.

(** ** Resolution normaliser *)

(** [int n] as a float, as Python converts it when an operation mixes the
    two types. *)
Definition float_of_int (n : Z) : float :=
  match n with
  | Z0 => 0%float
  | Zpos _ => PrimFloat.of_uint63 (Uint63.of_Z n)
  | Zneg _ => PrimFloat.opp (PrimFloat.of_uint63 (Uint63.of_Z (- n)))
  end.

(** [k] is what [round(x)] returns: the integer nearest to the float [x], the
    even one when two are equally near. *)
Definition is_round (x : float) (k : Z) : bool :=
  let d := PrimFloat.abs (PrimFloat.sub x (float_of_int k)) in
  PrimFloat.ltb d 0.5%float || (PrimFloat.eqb d 0.5%float && Z.even k).

(** [round(x)] for a float [x] between 0 and 60. *)
Definition py_round (x : float) : option Z :=
  find (is_round x) (map Z.of_nat (seq 0 61)).

(** [round(m / r)] as Python computes it: the quotient of the two integers is
    a float. *)
Definition py_round_div_float (m r : Z) : option Z :=
  py_round (PrimFloat.div (float_of_int m) (float_of_int r)).

(** [round(m / r)] for integers [m] and [r <> 0], computed on the exact
    quotient: the nearest integer, a tie going to the even neighbour.  For a
    minute this is what the float computation returns: the float quotient
    lies on the same side of every half-integer as the exact one.
    [py_round_div_float_agrees] checks it for the resolutions up to four
    hours; from 119 minutes on the quotient is below one half. *)
Definition py_round_div (m r : Z) : Z :=
  let q := m / r in
  let twice := 2 * Z.abs (m mod r) in
  if twice <? Z.abs r then q
  else if Z.abs r <? twice then q + 1
  else if Z.even q then q else q + 1.

(** The body of [normalise_for_resolution] on the two entries of [data] it
    reads; the result is the new [data['when_recorded']]. *)
Definition normalise_when (when : datetime) (resolution : Z) : result datetime :=
  if resolution =? 0 then Err ZeroDivisionError
  else
    let when_minute := replace_second0 when in
    let minute_delta :=
      py_round_div (minute when_minute) resolution * resolution
      - minute when_minute in
    Ok (add_minutes when_minute minute_delta).

(** What the specification describes: rounding with ties going up. *)
Definition round_half_up_div (m r : Z) : Z := (2 * m + r) / (2 * r).

Definition normalize_half_up (when : datetime) (resolution : Z) : datetime :=
  let when_minute := replace_second0 when in
  add_minutes when_minute
    (round_half_up_div (minute when_minute) resolution * resolution
     - minute when_minute).

(** ** Data model *)

(** The operations the code applies to measured values (Python floats). *)
Class Num (V : Type) : Type :=
  { vzero : V;                  (* the value of [temp_sum = 0] *)
    vadd : V -> V -> V;         (* [temp_sum += t['temperature']] *)
    vdiv : V -> Z -> V;         (* [temp_sum / len(temps)] *)
    vleb : V -> V -> bool }.    (* the order [ORDER BY ... DESC] sorts by *)

(** Python's floats. *)
#[export] Instance Num_float : Num float :=
  { vzero := 0%float;
    vadd := PrimFloat.add;
    vdiv := fun v n => PrimFloat.div v (float_of_int n);
    vleb := PrimFloat.leb }.

Inductive quantity : Type := Temperature | Pressure.

(** A stored row: its [rowid] and its columns. *)
Record row (D : Type) : Type := mkrow { rowid : Z; cols : D }.
Arguments mkrow {D} rowid cols.
Arguments rowid {D} _.
Arguments cols {D} _.

(** Columns of [temperature] and [pressure]; [value] is the column
    [temperature] or [pressure], and [sensor_temperature] is NULL in every row
    of [temperature]. *)
Record reading (V : Type) : Type := mkreading
  { when_recorded : datetime;
    value : V;
    sensor_temperature : option V;
    resolution : Z }.
Arguments mkreading {V}.
Arguments when_recorded {V} _.
Arguments value {V} _.
Arguments sensor_temperature {V} _.
Arguments resolution {V} _.

(** Columns of [daily_temperature] and [daily_pressure]. *)
Record daily (V : Type) : Type := mkdaily
  { day : Z;
    high : V;
    low : V;
    mean : V;
    median : V;
    high_recorded : datetime;
    low_recorded : datetime;
    median_recorded : datetime }.
Arguments mkdaily {V}.
Arguments day {V} _.
Arguments high {V} _.
Arguments low {V} _.
Arguments mean {V} _.
Arguments median {V} _.
Arguments high_recorded {V} _.
Arguments low_recorded {V} _.
Arguments median_recorded {V} _.

Record tables (V : Type) : Type := mktables
  { temperature : list (row (reading V));
    daily_temperature : list (row (daily V));
    pressure : list (row (reading V));
    daily_pressure : list (row (daily V)) }.
Arguments mktables {V}.
Arguments temperature {V} _.
Arguments daily_temperature {V} _.
Arguments pressure {V} _.
Arguments daily_pressure {V} _.

(** [store] is what the connection sees; [commits] are the snapshots that
    [db.commit()] has made durable, the latest first. *)
Record conn (V : Type) : Type := mkconn
  { store : tables V; commits : list (tables V) }.
Arguments mkconn {V}.
Arguments store {V} _.
Arguments commits {V} _.

(** A table of the database, as the code names it in its SQL text. *)
Record table_ref (V D : Type) : Type := mktable_ref
  { rows_of : tables V -> list (row D);
    with_rows : list (row D) -> tables V -> tables V }.
Arguments mktable_ref {V D}.
Arguments rows_of {V D} _.
Arguments with_rows {V D} _.

(** The JSON object of a request body, restricted to the keys the schemas
    know; a key is absent or carries a value of its field's type. *)
Record request_json (V : Type) : Type := mkjson
  { j_when_recorded : option datetime;
    j_value : option V;
    j_sensor_temperature : option V;
    j_resolution : option Z }.
Arguments mkjson {V}.
Arguments j_when_recorded {V} _.
Arguments j_value {V} _.
Arguments j_sensor_temperature {V} _.
Arguments j_resolution {V} _.

(** What [TemperatureSchema().load] / [PressureSchema().load] return. *)
Record document (V : Type) : Type := mkdocument
  { l_when_recorded : option datetime;
    l_value : V;
    l_sensor_temperature : option V;
    l_resolution : Z }.
Arguments mkdocument {V}.
Arguments l_when_recorded {V} _.
Arguments l_value {V} _.
Arguments l_sensor_temperature {V} _.
Arguments l_resolution {V} _.

(** The [args] of an interval query: each key is present or not. *)
Record criteria (T : Type) : Type := mkcriteria
  { exactly : option T; before : option T; after : option T }.
Arguments mkcriteria {T}.
Arguments exactly {T} _.
Arguments before {T} _.
Arguments after {T} _.

(** The requests that write to the store: POST to a collection, PUT to a
    document, and a recomputation of a day on its own. *)
Inductive request (V : Type) : Type :=
| Ingest (q : quantity) (utcnow : datetime) (json : request_json V)
| Correct (q : quantity) (id : Z) (json : request_json V)
| Recompute (q : quantity) (day : datetime).
Arguments Ingest {V}.
Arguments Correct {V}.
Arguments Recompute {V}.

(** One condition [date_field <op> ?] of a WHERE clause. *)
Inductive condition : Type := FieldEq | FieldLe | FieldGe.

Section Store.
Context {V : Type} {num : Num V}.

Definition empty_tables : tables V := mktables [] [] [] [].

Definition readings_of (q : quantity) (t : tables V)
  : list (row (reading V)) :=
  match q with Temperature => temperature t | Pressure => pressure t end.

Definition with_readings (q : quantity) (l : list (row (reading V)))
    (t : tables V) : tables V :=
  match q with
  | Temperature =>
      mktables l (daily_temperature t) (pressure t) (daily_pressure t)
  | Pressure =>
      mktables (temperature t) (daily_temperature t) l (daily_pressure t)
  end.

Definition dailies_of (q : quantity) (t : tables V)
  : list (row (daily V)) :=
  match q with
  | Temperature => daily_temperature t
  | Pressure => daily_pressure t
  end.

Definition with_dailies (q : quantity) (l : list (row (daily V)))
    (t : tables V) : tables V :=
  match q with
  | Temperature => mktables (temperature t) l (pressure t) (daily_pressure t)
  | Pressure => mktables (temperature t) (daily_temperature t) (pressure t) l
  end.

Definition reading_table (q : quantity) : table_ref V (reading V) :=
  mktable_ref (readings_of q) (with_readings q).

Definition daily_table (q : quantity) : table_ref V (daily V) :=
  mktable_ref (dailies_of q) (with_dailies q).

(** ** The connection and the handlers' monad *)

Definition empty_conn : conn V := mkconn empty_tables [].

Definition M (A : Type) : Type := conn V -> conn V * result A.

Definition ret {A} (a : A) : M A := fun c => (c, Ok a).

Definition bind {A B} (m : M A) (f : A -> M B) : M B :=
  fun c =>
    match m c with
    | (c', Ok a) => f a c'
    | (c', Err e) => (c', Err e)
    end.

(** [abort(...)], or an exception that nothing catches. *)
Definition abort {A} (e : error) : M A := fun c => (c, Err e).

Definition lift {A} (r : result A) : M A := fun c => (c, r).

Notation "x <- m ;; k" := (bind m (fun x => k))
  (at level 61, m at next level, right associativity).
Notation "m ;;; k" := (bind m (fun _ => k))
  (at level 61, right associativity).

(** [query_database(query, args)]: a SELECT, given as the function it
    computes on the tables. *)
Definition query_database {A} (query : tables V -> A) : M A :=
  fun c => (c, Ok (query (store c))).

(** [cursor.execute] of an INSERT or UPDATE statement. *)
Definition execute (statement : tables V -> tables V) : M unit :=
  fun c => (mkconn (statement (store c)) (commits c), Ok tt).

(** [db.commit()] *)
Definition commit : M unit :=
  fun c => (mkconn (store c) (store c :: commits c), Ok tt).

(** The rowid SQLite gives a new row: one more than the largest in use. *)
Definition next_rowid {D} (rows : list (row D)) : Z :=
  fold_right Z.max 0 (map rowid rows) + 1.

(** [perform_insert(table, data)] *)
Definition perform_insert {D} (table : table_ref V D) (data : D) : M Z :=
  id <- query_database (fun t => next_rowid (rows_of table t)) ;;
  execute (fun t =>
             with_rows table (rows_of table t ++ [mkrow id data]) t) ;;;
  commit ;;;
  ret id.

(** [perform_update(table, data, "rowid", constraint_value)].  [data] is the
    list of the assignments [column = ?] of the SET clause; with none the
    statement is not SQL and [execute] raises. *)
Definition perform_update {D} (table : table_ref V D) (data : list (D -> D))
    (constraint_value : Z) : M unit :=
  match data with
  | [] => abort OperationalError
  | _ =>
      execute (fun t =>
        with_rows table
          (map (fun r =>
                  if rowid r =? constraint_value
                  then mkrow (rowid r)
                             (fold_left (fun d set => set d) data (cols r))
                  else r)
               (rows_of table t)) t) ;;;
      commit
  end.

(** ** Interval queries *)

(** [add_date_criteria_to_query(query, date_field, args, query_args)].
    [query] is the conjunction of conditions on [date_field] that follows
    [where] ([where 1=1] is the empty one); each condition takes the
    parameter of [query_args] at its position. *)
Definition add_date_criteria_to_query {T} (query : list condition)
    (args : criteria T) (query_args : list T) : list condition * list T :=
  match exactly args with
  | Some e => (query ++ [FieldEq], query_args ++ [e])
  | None =>
      match before args, after args with
      | None, None => (query, query_args)
      | _, _ =>
          let '(query, query_args) :=
            match before args with
            | Some b => (query ++ [FieldLe], query_args ++ [b])
            | None => (query, query_args)
            end in
          match after args with
          | Some a => (query ++ [FieldGe], query_args ++ [a])
          | None => (query, query_args)
          end
      end
  end.

(** Whether a row whose date field is [field] satisfies the WHERE clause. *)
Fixpoint where_holds {T} (cmp : T -> T -> comparison)
    (query : list condition) (query_args : list T) (field : T) : bool :=
  match query, query_args with
  | [], [] => true
  | op :: query', arg :: query_args' =>
      match op, cmp field arg with
      | FieldEq, Eq => true
      | FieldLe, (Lt | Eq) => true
      | FieldGe, (Gt | Eq) => true
      | _, _ => false
      end && where_holds cmp query' query_args' field
  | _, _ => false
  end.

(** [SELECT ... from <table> <where>]: no ORDER BY, the rows come in the
    order of the table scan. *)
Definition select_where {D T} (date_field : D -> T)
    (cmp : T -> T -> comparison) (query : list condition)
    (query_args : list T) (rows : list (row D)) : list (row D) :=
  filter (fun r => where_holds cmp query query_args (date_field (cols r)))
         rows.

(** [TemperatureCollection.get] and [PressureCollection.get] *)
Definition collection_get (q : quantity) (args : criteria datetime)
  : M (list (row (reading V))) :=
  let '(query, query_args) := add_date_criteria_to_query [] args [] in
  query_database (fun t =>
    select_where when_recorded dt_compare query query_args (readings_of q t)).

(** [DailyTemperatureCollection.get] and [DailyPressureCollection.get] *)
Definition daily_collection_get (q : quantity) (args : criteria Z)
  : M (list (row (daily V))) :=
  let '(query, query_args) := add_date_criteria_to_query [] args [] in
  query_database (fun t =>
    select_where day Z.compare query query_args (dailies_of q t)).

(** ** Daily rollups *)

(** [ORDER BY <value> DESC] over the rows of a scan: a row goes behind the
    rows of a greater value and in front of the later rows of the scan. *)
Fixpoint insert_desc (x : row (reading V)) (l : list (row (reading V)))
  : list (row (reading V)) :=
  match l with
  | [] => [x]
  | y :: l' =>
      if vleb (value (cols y)) (value (cols x)) then x :: y :: l'
      else y :: insert_desc x l'
  end.

Fixpoint order_by_desc (l : list (row (reading V)))
  : list (row (reading V)) :=
  match l with
  | [] => []
  | x :: l' => insert_desc x (order_by_desc l')
  end.

(** [WHERE when_recorded >= ? AND when_recorded < ?] *)
Definition in_day (day_start day_end : datetime) (r : row (reading V))
  : bool :=
  dt_leb day_start (when_recorded (cols r))
  && dt_ltb (when_recorded (cols r)) day_end.

(** The assignments of the UPDATE of a daily table: [data] has every
    column. *)
Definition daily_assignments (data : daily V) : list (daily V -> daily V) :=
  [ fun d => mkdaily (day data) (high d) (low d) (mean d) (median d)
               (high_recorded d) (low_recorded d) (median_recorded d);
    fun d => mkdaily (day d) (high data) (low d) (mean d) (median d)
               (high_recorded d) (low_recorded d) (median_recorded d);
    fun d => mkdaily (day d) (high d) (low data) (mean d) (median d)
               (high_recorded d) (low_recorded d) (median_recorded d);
    fun d => mkdaily (day d) (high d) (low d) (mean data) (median d)
               (high_recorded d) (low_recorded d) (median_recorded d);
    fun d => mkdaily (day d) (high d) (low d) (mean d) (median data)
               (high_recorded d) (low_recorded d) (median_recorded d);
    fun d => mkdaily (day d) (high d) (low d) (mean d) (median d)
               (high_recorded data) (low_recorded d) (median_recorded d);
    fun d => mkdaily (day d) (high d) (low d) (mean d) (median d)
               (high_recorded d) (low_recorded data) (median_recorded d);
    fun d => mkdaily (day d) (high d) (low d) (mean d) (median d)
               (high_recorded d) (low_recorded d) (median_recorded data) ].

(** The dictionary [data] that the recomputation builds from the rows of a
    day, [high] being the first of them. *)
Definition daily_data (day : datetime) (high : row (reading V))
    (temps : list (row (reading V))) : daily V :=
  let low := last temps high in
  let median := nth (length temps / 2)%nat temps high in
  let temp_sum :=
    fold_left (fun acc t => vadd acc (value (cols t))) temps vzero in
  let mean := vdiv temp_sum (Z.of_nat (length temps)) in
  mkdaily (date day) (value (cols high)) (value (cols low)) mean
          (value (cols median))
          (when_recorded (cols high)) (when_recorded (cols low))
          (when_recorded (cols median)).

(** [SELECT rowid as id FROM <daily table> WHERE day = ?] with [one=True] *)
Definition select_day (q : quantity) (d : Z) (t : tables V)
  : option (row (daily V)) :=
  hd_error (filter (fun r => day (cols r) =? d) (dailies_of q t)).

(** [update_daily_temperatures(day)] and [update_daily_pressure(day)]: the
    two differ in the names of their tables only. *)
Definition update_daily (q : quantity) (day : datetime) : M unit :=
  let day_start := replace_midnight day in
  let day_end := add_days day_start 1 in
  temps <- query_database (fun t =>
    order_by_desc (filter (in_day day_start day_end) (readings_of q t))) ;;
  match temps with
  | [] => ret tt
  | high :: _ =>
      let data := daily_data day high temps in
      existing <- query_database (select_day q (date day)) ;;
      match existing with
      | Some e =>
          perform_update (daily_table q) (daily_assignments data) (rowid e)
      | None =>
          perform_insert (daily_table q) data ;;; ret tt
      end
  end.

Definition update_daily_temperatures : datetime -> M unit :=
  update_daily Temperature.
Definition update_daily_pressure : datetime -> M unit :=
  update_daily Pressure.

(** ** Request bodies *)

(** [temperature_document_schema.load] and [pressure_document_schema.load]:
    the value is required, [resolution] defaults to 15, and
    [sensor_temperature] is a field of the pressure schema only (a key
    without a field is rejected). *)
Definition document_schema_load (q : quantity) (json : request_json V)
  : result (document V) :=
  match j_value json with
  | None => Err ValidationError
  | Some v =>
      match q, j_sensor_temperature json with
      | Temperature, Some _ => Err ValidationError
      | _, s =>
          Ok (mkdocument (j_when_recorded json) v s
                (match j_resolution json with Some r => r | None => 15 end))
      end
  end.

(** [temperature_put_schema.load(json)], the schema with
    [only=('temperature',)]: the value is required; and
    [pressure_put_schema.load(json, partial=('pressure',
    'sensor_temperature'))], where both fields are optional.  The result is
    the dictionary of the fields that were sent, as the assignments it stands
    for in [perform_update]. *)
Definition put_schema_load (q : quantity) (json : request_json V)
  : result (list (reading V -> reading V)) :=
  match j_when_recorded json, j_resolution json with
  | None, None =>
      let set_value :=
        match j_value json with
        | Some v =>
            [fun d => mkreading (when_recorded d) v (sensor_temperature d)
                        (resolution d)]
        | None => []
        end in
      let set_sensor_temperature :=
        match j_sensor_temperature json with
        | Some s =>
            [fun d => mkreading (when_recorded d) (value d) (Some s)
                        (resolution d)]
        | None => []
        end in
      match q with
      | Temperature =>
          match j_value json, j_sensor_temperature json with
          | Some _, None => Ok set_value
          | _, _ => Err ValidationError
          end
      | Pressure => Ok (set_value ++ set_sensor_temperature)
      end
  | _, _ => Err ValidationError
  end.

(** ** Reading store *)

(** [normalise_for_resolution(data)] *)
Definition normalise_for_resolution (data : reading V)
  : result (reading V) :=
  rbind (normalise_when (when_recorded data) (resolution data))
        (fun when => Ok (mkreading when (value data)
                           (sensor_temperature data) (resolution data))).

(** [SELECT rowid as id from <table> where when_recorded = ?] with
    [one=True] *)
Definition select_when (q : quantity) (when : datetime) (t : tables V)
  : option (row (reading V)) :=
  hd_error (filter (fun r => dt_eqb (when_recorded (cols r)) when)
                   (readings_of q t)).

(** [SELECT ... from <table> where rowid = ?] with [one=True] *)
Definition select_rowid (q : quantity) (id : Z) (t : tables V)
  : option (row (reading V)) :=
  hd_error (filter (fun r => rowid r =? id) (readings_of q t)).

(** [TemperatureCollection.post] and [PressureCollection.post]; [utcnow] is
    the clock at the time of the request, [json] the request body.  The
    result is the id in the [Location] header. *)
Definition post (q : quantity) (utcnow : datetime) (json : request_json V)
  : M Z :=
  data <- lift (document_schema_load q json) ;;
  let data :=
    mkreading
      (match l_when_recorded data with Some w => w | None => utcnow end)
      (l_value data) (l_sensor_temperature data) (l_resolution data) in
  data <- lift (normalise_for_resolution data) ;;
  existing <- query_database (select_when q (when_recorded data)) ;;
  match existing with
  | Some e => abort (Conflict (rowid e))
  | None =>
      id <- perform_insert (reading_table q) data ;;
      update_daily q (when_recorded data) ;;;
      ret id
  end.

(** [TemperatureDocument.put] and [PressureDocument.put] *)
Definition put (q : quantity) (id : Z) (json : request_json V) : M unit :=
  data <- lift (put_schema_load q json) ;;
  result <- query_database (select_rowid q id) ;;
  match result with
  | None => abort NotFound
  | Some result =>
      perform_update (reading_table q) data id ;;;
      update_daily q (when_recorded (cols result)) ;;;
      ret tt
  end.


(** ** Vocabulary of the properties *)

(** [a] may stand in front of [b] in descending order of value. *)
Definition desc (a b : row (reading V)) : Prop :=
  vleb (value (cols b)) (value (cols a)) = true.

(** Ascending order of the time field of a result. *)
Definition ascending {D T} (date_field : D -> T)
    (cmp : T -> T -> comparison) (rows : list (row D)) : Prop :=
  StronglySorted
    (fun a b => cmp (date_field (cols a)) (date_field (cols b)) <> Gt) rows.

(** What the criteria of an interval query ask of a time field: to equal
    [exactly] when that key is present, and otherwise to be at most [before]
    and at least [after], for those of the two that are present. *)
Definition selected {T} (cmp : T -> T -> comparison) (args : criteria T)
    (field : T) : bool :=
  match exactly args with
  | Some e => match cmp field e with Eq => true | _ => false end
  | None =>
      match before args with
      | Some b => match cmp field b with Gt => false | _ => true end
      | None => true
      end
      && match after args with
         | Some a => match cmp field a with Lt => false | _ => true end
         | None => true
         end
  end.

(** The rows of the readings table that the recomputation of [day] reads,
    in the order of the table. *)
Definition day_readings (q : quantity) (day : datetime) (t : tables V)
  : list (row (reading V)) :=
  filter (in_day (replace_midnight day) (add_days (replace_midnight day) 1))
         (readings_of q t).

(** The daily table after the upsert of [data] for the day [d]. *)
Definition upsert (d : Z) (data : daily V) (rows : list (row (daily V)))
  : list (row (daily V)) :=
  match hd_error (filter (fun r => day (cols r) =? d) rows) with
  | Some e =>
      map (fun r => if rowid r =? rowid e then mkrow (rowid r) data else r)
          rows
  | None => rows ++ [mkrow (next_rowid rows) data]
  end.

(** The timestamp under which an ingestion would store its reading. *)
Definition normalized_when (q : quantity) (utcnow : datetime)
    (json : request_json V) : result datetime :=
  rbind (document_schema_load q json)
        (fun data =>
           normalise_when
             (match l_when_recorded data with Some w => w | None => utcnow end)
             (l_resolution data)).

(** A reading after a correction that carries [json]: the fields that were
    sent are replaced. *)
Definition corrected (json : request_json V) (d : reading V) : reading V :=
  mkreading (when_recorded d)
    (match j_value json with Some v => v | None => value d end)
    (match j_sensor_temperature json with
     | Some s => Some s
     | None => sensor_temperature d
     end)
    (resolution d).

(** What the daily tables keep: no rowid twice, no day twice, and a row
    only for a day that has readings. *)
Definition daily_invariant (t : tables V) : Prop :=
  forall q,
    NoDup (map rowid (dailies_of q t)) /\
    NoDup (map (fun r => day (cols r)) (dailies_of q t)) /\
    forall r, In r (dailies_of q t) ->
              day_readings q (mkdatetime (day (cols r)) 0 0 0 0) t <> [].

(** The rows of a table or of a result come with increasing rowids. *)
Definition rowid_order {D} (rows : list (row D)) : Prop :=
  StronglySorted Z.lt (map rowid rows).

(** Every table of the database is in the order of its rowids. *)
Definition tables_in_order (t : tables V) : Prop :=
  forall q, rowid_order (readings_of q t) /\ rowid_order (dailies_of q t).

(** The state a request leaves behind, and that of a sequence of them. *)
Definition handle (r : request V) (c : conn V) : conn V :=
  match r with
  | Ingest q utcnow json => fst (post q utcnow json c)
  | Correct q id json => fst (put q id json c)
  | Recompute q day => fst (update_daily q day c)
  end.

Definition serve (requests : list (request V)) (c : conn V) : conn V :=
  fold_left (fun c r => handle r c) requests c.

(** The rollup of the day of [day] is up to date in [t]: to recompute it
    changes nothing. *)
Definition up_to_date (q : quantity) (day : datetime) (t : tables V) : Prop :=
  store (fst (update_daily q day (mkconn t []))) = t.

End Store.

(** ** Documents, latest rows and the status page *)

(** What [current_status] hands to its template: the latest temperature and
    pressure, the rows of the four charts, and the [Last-Modified] header.
    The formatting of the numbers and the drawing of the charts are not
    part of it. *)
Record page (V : Type) : Type := mkpage
  { p_temperature : row (reading V);
    p_pressure : row (reading V);
    temperature_24 : list (row (reading V));
    pressure_24 : list (row (reading V));
    temperature_daily : list (row (daily V));
    pressure_daily : list (row (daily V));
    last_modified : datetime }.
Arguments mkpage {V}.
Arguments p_temperature {V} _.
Arguments p_pressure {V} _.
Arguments temperature_24 {V} _.
Arguments pressure_24 {V} _.
Arguments temperature_daily {V} _.
Arguments pressure_daily {V} _.
Arguments last_modified {V} _.

(** How [current_status] ends: with status 304, with the page, or in the
    [AttributeError] of an attribute read on [None]. *)
Inductive response (V : Type) : Type :=
| NotModified
| Rendered (p : page V)
| AttributeError.
Arguments NotModified {V}.
Arguments Rendered {V} p.
Arguments AttributeError {V}.

(** [k] is [math.floor(x)] for the float [x]. *)
Definition is_floor (x : float) (k : Z) : bool :=
  PrimFloat.leb (float_of_int k) x && PrimFloat.ltb x (float_of_int (k + 1)).

(** [math.floor(m / r)] as Python computes it, for a quotient between 0 and
    60. *)
Definition py_floor_div_float (m r : Z) : option Z :=
  find (is_floor (PrimFloat.div (float_of_int m) (float_of_int r)))
       (map Z.of_nat (seq 0 61)).

(** The time [current_status] takes as [now]: the clock without its seconds,
    moved back to the quarter of the hour;
    [int(math.floor(now.minute / 15) * 15) - now.minute] is the delta. *)
Definition quarter_hour (utcnow : datetime) : datetime :=
  let now := replace_second0 utcnow in
  let minute_delta := (minute now / 15) * 15 - minute now in
  add_minutes now minute_delta.

(** [ORDER BY <field>] over the rows of a scan, ascending or descending:
    [before a b] tells whether a row of field [a] may stand in front of a row
    of field [b]; a row goes in front of the later rows of the scan that it
    may stand in front of. *)
Fixpoint insert_by {D T} (before : T -> T -> bool) (field : D -> T)
    (x : row D) (l : list (row D)) : list (row D) :=
  match l with
  | [] => [x]
  | y :: l' =>
      if before (field (cols x)) (field (cols y)) then x :: y :: l'
      else y :: insert_by before field x l'
  end.

Fixpoint order_by {D T} (before : T -> T -> bool) (field : D -> T)
    (l : list (row D)) : list (row D) :=
  match l with
  | [] => []
  | x :: l' => insert_by before field x (order_by before field l')
  end.

(** The row [a] may stand in front of the row [b]. *)
Definition in_front {D T} (before : T -> T -> bool) (field : D -> T)
    (a b : row D) : Prop :=
  before (field (cols a)) (field (cols b)) = true.

(** [ORDER BY when_recorded DESC] and [ASC], [ORDER BY day DESC] and [ASC] *)
Definition when_desc (a b : datetime) : bool := dt_leb b a.
Definition when_asc (a b : datetime) : bool := dt_leb a b.
Definition day_desc (a b : Z) : bool := b <=? a.
Definition day_asc (a b : Z) : bool := a <=? b.

Section Pages.
Context {V : Type} {num : Num V}.

Local Notation "x <- m ;; k" := (bind m (fun x => k))
  (at level 61, m at next level, right associativity).

(** [SELECT ... from <table> order by when_recorded desc limit 1] with
    [one=True] *)
Definition select_latest (q : quantity) (t : tables V)
  : option (row (reading V)) :=
  hd_error (order_by when_desc when_recorded (readings_of q t)).

(** [SELECT ... from <daily table> order by day desc limit 1] with
    [one=True] *)
Definition select_daily_latest (q : quantity) (t : tables V)
  : option (row (daily V)) :=
  hd_error (order_by day_desc day (dailies_of q t)).


(** [TemperatureLatest.get] and [PressureLatest.get] *)
Definition latest_get (q : quantity) : M (row (reading V)) :=
  result <- query_database (select_latest q) ;;
  match result with
  | None => abort NotFound
  | Some result => ret result
  end.


(** [DailyTemperatureLatest.get] and [DailyPressureLatest.get] *)
Definition daily_latest_get (q : quantity) : M (row (daily V)) :=
  result <- query_database (select_daily_latest q) ;;
  match result with
  | None => abort NotFound
  | Some result => ret result
  end.

(** [SELECT ... from <table> where when_recorded >= ? order by when_recorded
    asc] *)
Definition select_since (q : quantity) (since : datetime) (t : tables V)
  : list (row (reading V)) :=
  order_by when_asc when_recorded
    (filter (fun r => dt_leb since (when_recorded (cols r)))
            (readings_of q t)).

(** [SELECT ... from <daily table> where day >= ? order by day asc] *)
Definition select_daily_since (q : quantity) (since : Z) (t : tables V)
  : list (row (daily V)) :=
  order_by day_asc day
    (filter (fun r => since <=? day (cols r)) (dailies_of q t)).

(** [current_status()]: [utcnow] and [today] are the clock and the calendar
    at the time of the request, [if_modified_since] the header of that name.
    An attribute of [temperature] or [pressure] is read in the comparison
    with the header and again in the arguments of the template, the
    temperature first. *)
Definition current_status (utcnow : datetime) (today : Z)
    (if_modified_since : option datetime) (t : tables V) : response V :=
  let temperature := select_latest Temperature t in
  let pressure := select_latest Pressure t in
  let render :=
    let now := quarter_hour utcnow in
    let temperature_24 := select_since Temperature (add_days now (-1)) t in
    let pressure_24 := select_since Pressure (add_days now (-1)) t in
    let temperature_daily :=
      select_daily_since Temperature (today - 30) t in
    let pressure_daily := select_daily_since Pressure (today - 30) t in
    match temperature with
    | None => AttributeError
    | Some temperature =>
        match pressure with
        | None => AttributeError
        | Some pressure =>
            Rendered (mkpage temperature pressure temperature_24 pressure_24
                        temperature_daily pressure_daily
                        (when_recorded (cols temperature)))
        end
    end in
  match if_modified_since with
  | Some conditional =>
      match temperature with
      | None => AttributeError
      | Some temperature =>
          if dt_ltb conditional (when_recorded (cols temperature)) then
            match pressure with
            | None => AttributeError
            | Some pressure =>
                if dt_ltb conditional (when_recorded (cols pressure))
                then render
                else NotModified
            end
          else NotModified
      end
  | None => render
  end.

(** ** Vocabulary of the properties of reachable states *)

(** Every stored timestamp is a value of the type, to the minute. *)
Definition readings_normalised (t : tables V) : Prop :=
  forall q r, In r (readings_of q t) ->
    valid_datetime (when_recorded (cols r)) /\
    second (when_recorded (cols r)) = 0 /\
    microsecond (when_recorded (cols r)) = 0.

(** No two readings of a quantity have the same timestamp. *)
Definition readings_unique (t : tables V) : Prop :=
  forall q, NoDup (map (fun r => when_recorded (cols r)) (readings_of q t)).

(** The row [r] of a daily table holds the statistics of the readings that
    its day has in [t]. *)
Definition rollup_current (q : quantity) (t : tables V) (r : row (daily V))
  : Prop :=
  exists hi rest,
    order_by_desc (day_readings q (mkdatetime (day (cols r)) 0 0 0 0) t)
    = hi :: rest /\
    cols r = daily_data (mkdatetime (day (cols r)) 0 0 0 0) hi (hi :: rest).

(** Every row of the daily tables is current. *)
Definition rollups_current (t : tables V) : Prop :=
  forall q r, In r (dailies_of q t) -> rollup_current q t r.


(** What the requests keep of the store. *)
Definition store_invariant (t : tables V) : Prop :=
  tables_in_order t /\ daily_invariant t /\ readings_normalised t /\
  readings_unique t /\ rollups_current t.

(** The rowids of a table are 1, 2, ... in the order of the table. *)
Definition rowids_sequential {D} (rows : list (row D)) : Prop :=
  map rowid rows = map Z.of_nat (seq 1 (length rows)).

(** Every table has sequential rowids. *)
Definition tables_sequential (t : tables V) : Prop :=
  forall q,
    rowids_sequential (readings_of q t) /\
    rowids_sequential (dailies_of q t).

End Pages.

(** ** Sample data *)

(** A time of day on one fixed day, to the minute. *)
Definition at_ (h m : Z) : datetime := mkdatetime 738000 h m 0 0.

(** A POST body with a timestamp and a value. *)
Definition reading_json (when : datetime) (v : float) : request_json float :=
  mkjson (Some when) (Some v) None None.

(** A PUT body with a value. *)
Definition value_json (v : float) : request_json float :=
  mkjson None (Some v) None None.

(** An empty JSON object. *)
Definition empty_json : request_json float := mkjson None None None None.

(** Three temperatures of one day. *)
Definition three_readings : conn float :=
  Eval vm_compute in
  serve [ Ingest Temperature (at_ 0 0) (reading_json (at_ 0 15) 10%float);
          Ingest Temperature (at_ 0 0) (reading_json (at_ 6 0) 20%float);
          Ingest Temperature (at_ 0 0) (reading_json (at_ 12 0) 15%float) ]
        empty_conn.

(** Four temperatures of one day, two of them equal. *)
Definition four_readings : conn float :=
  Eval vm_compute in
  serve [ Ingest Temperature (at_ 0 0) (reading_json (at_ 1 0) 5%float);
          Ingest Temperature (at_ 0 0) (reading_json (at_ 2 0) 5%float);
          Ingest Temperature (at_ 0 0) (reading_json (at_ 3 0) 10%float);
          Ingest Temperature (at_ 0 0) (reading_json (at_ 4 0) 20%float) ]
        empty_conn.

(** The three temperatures and two pressures, the later pressure at 09:00. *)
Definition both_requests : list (request float) :=
  [ Ingest Temperature (at_ 0 0) (reading_json (at_ 0 15) 10%float);
    Ingest Temperature (at_ 0 0) (reading_json (at_ 6 0) 20%float);
    Ingest Temperature (at_ 0 0) (reading_json (at_ 12 0) 15%float);
    Ingest Pressure (at_ 0 0) (reading_json (at_ 6 0) 101%float);
    Ingest Pressure (at_ 0 0) (reading_json (at_ 9 0) 102%float) ].

Definition both_readings : conn float :=
  Eval vm_compute in serve both_requests empty_conn.

(** The temperature of noon arrives before that of six in the morning. *)
Definition late_arrival : conn float :=
  Eval vm_compute in
  serve [ Ingest Temperature (at_ 0 0) (reading_json (at_ 12 0) 15%float);
          Ingest Temperature (at_ 0 0) (reading_json (at_ 6 0) 20%float) ]
        empty_conn.

(** One pressure reading. *)
Definition one_pressure : conn float :=
  Eval vm_compute in
  serve [ Ingest Pressure (at_ 0 0) (reading_json (at_ 6 0) 101%float) ]
        empty_conn.

(** The pressure reading and a second one at 09:00. *)
Definition two_pressures : conn float :=
  Eval vm_compute in
  serve [ Ingest Pressure (at_ 0 0) (reading_json (at_ 6 0) 101%float);
          Ingest Pressure (at_ 0 0) (reading_json (at_ 9 0) 102%float) ]
        empty_conn.


(** The status page over [both_readings] at 05:07:42 of the next day. *)
Definition status_page : page float :=
  Eval vm_compute in
  match current_status (mkdatetime 738001 5 7 42 0) 738001 None
          (store both_readings) with
  | Rendered p => p
  | _ =>
      let none := mkrow 0 (mkreading (at_ 0 0) 0%float None 0) in
      mkpage none none [] [] [] [] (at_ 0 0)
  end.

(** * Properties *)

(** ** The resolution normaliser *)

(** [py_round_div m r] is the integer nearest to [m / r], the even one of the
    two when [m / r] is half-way between them. *)
Lemma py_round_div_nearest (m r : Z) :
  0 < r ->
  2 * Z.abs (m - py_round_div m r * r) <= r /\
  (2 * Z.abs (m - py_round_div m r * r) = r ->
   Z.even (py_round_div m r) = true).
Proof.
  intros Hr. unfold py_round_div.
  pose proof (Z.div_mod m r ltac:(lia)) as Hdm.
  pose proof (Z.mod_pos_bound m r Hr) as Hb.
  set (q := m / r) in *. set (x := m mod r) in *.
  rewrite (Z.abs_eq x), (Z.abs_eq r) by lia.
  destruct (2 * x <? r) eqn:E1; [apply Z.ltb_lt in E1 | apply Z.ltb_ge in E1].
  - split; [nia | intros; nia].
  - destruct (r <? 2 * x) eqn:E2; [apply Z.ltb_lt in E2 | apply Z.ltb_ge in E2].
    + split; [nia | intros; nia].
    + destruct (Z.even q) eqn:E3.
      * split; [nia | auto].
      * split; [nia |].
        intros _. rewrite Z.even_add, E3. reflexivity.
Qed.

(** The float computation of [round(m / r)] and the computation on the exact
    quotient agree for every minute and every resolution up to four hours. *)
Lemma py_round_div_float_table :
  forallb (fun m =>
    forallb (fun r =>
      match py_round_div_float m r with
      | Some k => k =? py_round_div m r
      | None => false
      end) (map Z.of_nat (seq 1 240)))
    (map Z.of_nat (seq 0 60)) = true.
Proof. vm_compute. reflexivity. Qed.

Lemma py_round_div_float_agrees (m r : Z) :
  0 <= m < 60 -> 1 <= r <= 240 ->
  py_round_div_float m r = Some (py_round_div m r).
Proof.
  intros Hm Hr. pose proof py_round_div_float_table as T.
  rewrite forallb_forall in T.
  assert (Im : In m (map Z.of_nat (seq 0 60))).
  { apply in_map_iff. exists (Z.to_nat m). split; [lia |].
    apply in_seq. lia. }
  specialize (T m Im). rewrite forallb_forall in T.
  assert (Ir : In r (map Z.of_nat (seq 1 240))).
  { apply in_map_iff. exists (Z.to_nat r). split; [lia |].
    apply in_seq. lia. }
  specialize (T r Ir).
  destruct (py_round_div_float m r) as [k |]; [| discriminate].
  apply Z.eqb_eq in T. now subst.
Qed.

(** From 119 minutes on a resolution rounds every minute to 0. *)
Lemma py_round_div_large (m r : Z) :
  0 <= m < 60 -> 118 < r -> py_round_div m r = 0.
Proof.
  intros Hm Hr. unfold py_round_div.
  rewrite Z.div_small, Z.mod_small by lia.
  rewrite (Z.abs_eq m), (Z.abs_eq r) by lia.
  destruct (2 * m <? r) eqn:E; [reflexivity |].
  apply Z.ltb_ge in E. lia.
Qed.

(** A multiple of the resolution is rounded to itself. *)
Lemma py_round_div_multiple (j r : Z) : 0 < r -> py_round_div (j * r) r = j.
Proof.
  intros Hr. unfold py_round_div.
  rewrite Z.div_mul, Z.mod_mul by lia.
  simpl. replace (0 <? Z.abs r) with true; [reflexivity |].
  symmetry. apply Z.ltb_lt. lia.
Qed.

Lemma py_round_div_minute (m r : Z) :
  0 <= m < 60 -> 0 < r ->
  0 <= py_round_div m r * r < 120.
Proof.
  intros Hm Hr. destruct (py_round_div_nearest m r Hr) as [Hn _].
  set (k := py_round_div m r) in *.
  assert (Hk : k < 0 \/ k = 0 \/ 1 <= k) by lia.
  destruct Hk as [Hk | [Hk | Hk]].
  - assert (k * r <= - r) by nia. lia.
  - subst k. rewrite Hk. lia.
  - assert (r <= k * r) by nia. lia.
Qed.

Lemma abs_minutes_add (t : datetime) (delta : Z) :
  abs_minutes (add_minutes t delta) = abs_minutes t + delta.
Proof.
  unfold abs_minutes, add_minutes; simpl.
  set (total := hour t * 60 + minute t + delta).
  pose proof (Z.div_mod total 1440 ltac:(lia)).
  pose proof (Z.div_mod (total mod 1440) 60 ltac:(lia)).
  lia.
Qed.

Lemma add_minutes_valid (t : datetime) (delta : Z) :
  valid_datetime t -> valid_datetime (add_minutes t delta).
Proof.
  unfold valid_datetime, add_minutes; simpl. intros (Hh & Hm & Hs & Hu).
  set (total := hour t * 60 + minute t + delta).
  pose proof (Z.mod_pos_bound total 1440 ltac:(lia)).
  pose proof (Z.mod_pos_bound (total mod 1440) 60 ltac:(lia)).
  pose proof (Z.div_mod (total mod 1440) 60 ltac:(lia)).
  repeat split; lia.
Qed.

Lemma add_minutes_0 (t : datetime) : valid_datetime t -> add_minutes t 0 = t.
Proof.
  destruct t as [o h m s u]. unfold valid_datetime, add_minutes; simpl.
  intros (Hh & Hm & Hs & Hu).
  rewrite Z.add_0_r.
  assert (E : (h * 60 + m) / 1440 = 0) by (apply Z.div_small; lia).
  assert (E' : (h * 60 + m) mod 1440 = h * 60 + m) by (apply Z.mod_small; lia).
  rewrite E, E'.
  assert (E2 : (h * 60 + m) / 60 = h).
  { rewrite Z.add_comm, Z.div_add by lia. rewrite Z.div_small by lia. lia. }
  assert (E3 : (h * 60 + m) mod 60 = m).
  { rewrite Z.add_comm, Z.mod_add by lia. apply Z.mod_small; lia. }
  rewrite E2, E3. f_equal. lia.
Qed.

Lemma normalise_when_ok (when : datetime) (r : Z) :
  r <> 0 ->
  normalise_when when r =
  Ok (add_minutes (replace_second0 when)
        (py_round_div (minute when) r * r - minute when)).
Proof.
  intros Hr. unfold normalise_when.
  destruct (r =? 0) eqn:E; [apply Z.eqb_eq in E; contradiction | reflexivity].
Qed.

(** C4 (amended).  For a positive resolution the normaliser returns a
    timestamp: seconds and microseconds are zero, the minute has moved to
    [k * resolution] for the integer [k] nearest to [minute / resolution] (a
    tie goes to the even [k], as Python's [round] does, not up), the offset
    being added as a delta, so that the carry reaches the hour and the day:
    the result is [k * resolution] minutes after the start of the hour of
    [when].  Its minute is in [0,59], and 23:53 at resolution 15 becomes
    00:00 of the next day. *)
Theorem normalise_when_half_even (when : datetime) (r : Z) :
  valid_datetime when -> 0 < r ->
  exists k result,
    normalise_when when r = Ok result /\
    2 * Z.abs (minute when - k * r) <= r /\
    (2 * Z.abs (minute when - k * r) = r -> Z.even k = true) /\
    abs_minutes result = abs_minutes when - minute when + k * r /\
    valid_datetime result /\
    0 <= minute result <= 59 /\ second result = 0 /\ microsecond result = 0 /\
    (hour when = 23 -> minute when = 53 -> r = 15 ->
     result = mkdatetime (ordinal when + 1) 0 0 0 0).
Proof.
  intros Hv Hr.
  exists (py_round_div (minute when) r).
  eexists. split; [apply normalise_when_ok; lia |].
  destruct (py_round_div_nearest (minute when) r Hr) as [Hn He].
  assert (Hv0 : valid_datetime (replace_second0 when)).
  { destruct Hv as (? & ? & ? & ?). unfold valid_datetime; simpl. lia. }
  pose proof (add_minutes_valid (replace_second0 when)
                (py_round_div (minute when) r * r - minute when) Hv0) as Hv'.
  split; [exact Hn |]. split; [exact He |].
  split; [rewrite abs_minutes_add; unfold abs_minutes; simpl; lia |].
  split; [exact Hv' |].
  destruct Hv' as (_ & Hm & _).
  split; [lia |]. split; [reflexivity |]. split; [reflexivity |].
  intros H23 H53 ->. unfold add_minutes; simpl. rewrite H23, H53.
  reflexivity.
Qed.

Lemma minute_add_minutes (t : datetime) (delta : Z) :
  minute (add_minutes t delta) = (minute t + delta) mod 60.
Proof. unfold add_minutes; simpl. Z.div_mod_to_equations. lia. Qed.

(** A normalised timestamp is a fixed point exactly when its minute is a
    multiple of the resolution. *)
Lemma normalise_when_again (when : datetime) (r : Z) :
  valid_datetime when -> 0 < r ->
  forall result, normalise_when when r = Ok result ->
  (normalise_when result r = Ok result <->
   py_round_div (minute result) r * r = minute result).
Proof.
  intros Hv Hr result H1.
  rewrite normalise_when_ok in H1 by lia. injection H1 as H1.
  assert (Hvr : valid_datetime result).
  { subst result. apply add_minutes_valid.
    destruct Hv as (? & ? & ? & ?). unfold valid_datetime; simpl. lia. }
  assert (Hs : replace_second0 result = result) by (subst result; reflexivity).
  rewrite normalise_when_ok by lia. rewrite Hs.
  split.
  - intros H2. injection H2 as H2.
    apply (f_equal abs_minutes) in H2. rewrite abs_minutes_add in H2. lia.
  - intros H2. rewrite H2, Z.sub_diag. f_equal. apply add_minutes_0, Hvr.
Qed.

(** C8 (amended).  For a positive resolution, normalising a normalised
    timestamp again returns it unchanged exactly when the resolution divides
    60 or the first normalisation stays within the hour. *)
Theorem normalise_when_idempotent_iff (when : datetime) (r : Z) :
  valid_datetime when -> 0 < r ->
  (rbind (normalise_when when r) (fun w => normalise_when w r)
   = normalise_when when r
   <-> (60 mod r = 0 \/ py_round_div (minute when) r * r < 60)).
Proof.
  intros Hv Hr.
  pose proof (normalise_when_again when r Hv Hr) as Hagain.
  rewrite normalise_when_ok in * by lia. simpl rbind.
  specialize (Hagain _ eq_refl). rewrite Hagain.
  rewrite minute_add_minutes. simpl.
  assert (Hm : 0 <= minute when < 60) by apply Hv.
  pose proof (py_round_div_minute (minute when) r Hm Hr) as Ht.
  set (k := py_round_div (minute when) r) in *.
  replace (minute when + (k * r - minute when)) with (k * r) by lia.
  split.
  - intros H.
    destruct (Z_lt_le_dec (k * r) 60) as [Hlt | Hge]; [right; exact Hlt |].
    left.
    assert (E : (k * r) mod 60 = k * r - 60).
    { generalize dependent (k * r). intros x; intros.
      Z.div_mod_to_equations. lia. }
    rewrite E in H.
    set (k' := py_round_div (k * r - 60) r) in *.
    assert (E60 : 60 = (k - k') * r) by lia.
    rewrite E60. apply Z.mod_mul. lia.
  - intros [Hdiv | Hlt].
    + apply Z.mod_divide in Hdiv; [| lia]. destruct Hdiv as [c Hc].
      assert (E : exists j, (k * r) mod 60 = j * r).
      { destruct (Z_lt_le_dec (k * r) 60).
        - exists k. apply Z.mod_small. lia.
        - exists (k - c). rewrite Z.mul_sub_distr_r, <- Hc.
          generalize dependent (k * r). intros x; intros.
          Z.div_mod_to_equations. lia. }
      destruct E as [j Ej]. rewrite Ej. rewrite py_round_div_multiple by lia.
      reflexivity.
    + rewrite Z.mod_small by lia. rewrite py_round_div_multiple by lia.
      reflexivity.
Qed.

(** C4: the claim as stated fails.  At 10:15 and resolution 30 the quotient is
    0.5; rounding half up gives 10:30, the code returns 10:00. *)
Lemma normalise_when_not_half_up :
  normalise_when (mkdatetime 738000 10 15 0 0) 30
    = Ok (mkdatetime 738000 10 0 0 0) /\
  normalize_half_up (mkdatetime 738000 10 15 0 0) 30
    = mkdatetime 738000 10 30 0 0 /\
  normalise_when (mkdatetime 738000 10 15 0 0) 30
    <> Ok (normalize_half_up (mkdatetime 738000 10 15 0 0) 30).
Proof.
  split; [reflexivity |]. split; [reflexivity |].
  vm_compute. discriminate.
Qed.

(** 23:53:41.25 at resolution 15. *)
Lemma normalise_when_half_even_witness :
  valid_datetime (mkdatetime 738000 23 53 41 250000) /\ 0 < 15 /\
  exists k result,
    normalise_when (mkdatetime 738000 23 53 41 250000) 15 = Ok result /\
    2 * Z.abs (minute (mkdatetime 738000 23 53 41 250000) - k * 15) <= 15 /\
    (2 * Z.abs (minute (mkdatetime 738000 23 53 41 250000) - k * 15) = 15 ->
     Z.even k = true) /\
    abs_minutes result
      = abs_minutes (mkdatetime 738000 23 53 41 250000)
        - minute (mkdatetime 738000 23 53 41 250000) + k * 15 /\
    valid_datetime result /\
    0 <= minute result <= 59 /\ second result = 0 /\ microsecond result = 0 /\
    (hour (mkdatetime 738000 23 53 41 250000) = 23 ->
     minute (mkdatetime 738000 23 53 41 250000) = 53 -> 15 = 15 ->
     result = mkdatetime (ordinal (mkdatetime 738000 23 53 41 250000) + 1)
                0 0 0 0).
Proof.
  assert (Hv : valid_datetime (mkdatetime 738000 23 53 41 250000))
    by (unfold valid_datetime; simpl; lia).
  assert (Hr : 0 < 15) by lia.
  split; [exact Hv |]. split; [exact Hr |].
  exact (normalise_when_half_even (mkdatetime 738000 23 53 41 250000) 15 Hv Hr).
Defined.

(** C8: the claim as stated fails.  At resolution 9, 10:59 is normalised to
    11:03, and 11:03 to 11:00. *)
Lemma normalise_when_not_idempotent :
  normalise_when (mkdatetime 738000 10 59 0 0) 9
    = Ok (mkdatetime 738000 11 3 0 0) /\
  normalise_when (mkdatetime 738000 11 3 0 0) 9
    = Ok (mkdatetime 738000 11 0 0 0) /\
  rbind (normalise_when (mkdatetime 738000 10 59 0 0) 9)
        (fun w => normalise_when w 9)
    <> normalise_when (mkdatetime 738000 10 59 0 0) 9.
Proof.
  split; [reflexivity |]. split; [reflexivity |].
  vm_compute. discriminate.
Qed.

(** 23:53:41.25 at resolution 15, which divides 60. *)
Lemma normalise_when_idempotent_iff_witness :
  valid_datetime (mkdatetime 738000 23 53 41 250000) /\ 0 < 15 /\
  (rbind (normalise_when (mkdatetime 738000 23 53 41 250000) 15)
         (fun w => normalise_when w 15)
   = normalise_when (mkdatetime 738000 23 53 41 250000) 15
   <-> (60 mod 15 = 0 \/
        py_round_div (minute (mkdatetime 738000 23 53 41 250000)) 15 * 15
        < 60)).
Proof.
  assert (Hv : valid_datetime (mkdatetime 738000 23 53 41 250000))
    by (unfold valid_datetime; simpl; lia).
  assert (Hr : 0 < 15) by lia.
  split; [exact Hv |]. split; [exact Hr |].
  exact (normalise_when_idempotent_iff
           (mkdatetime 738000 23 53 41 250000) 15 Hv Hr).
Defined.

(** A normalised timestamp is a value of the type, whatever went in. *)
Lemma normalise_when_valid (when : datetime) (r : Z) (result : datetime) :
  normalise_when when r = Ok result -> valid_datetime result.
Proof.
  unfold normalise_when. destruct (r =? 0); [discriminate |].
  intros E. injection E as <-.
  unfold valid_datetime, add_minutes, replace_second0; simpl.
  Z.div_mod_to_equations. lia.
Qed.

(** ** Comparison of timestamps *)

Lemma dt_compare_eq (a b : datetime) : dt_compare a b = Eq <-> a = b.
Proof.
  destruct a as [o h m s u], b as [o' h' m' s' u'].
  unfold dt_compare; simpl. split.
  - destruct (o ?= o') eqn:Eo; try discriminate.
    destruct (h ?= h') eqn:Eh; try discriminate.
    destruct (m ?= m') eqn:Em; try discriminate.
    destruct (s ?= s') eqn:Es; try discriminate.
    intros Eu.
    apply Z.compare_eq_iff in Eo, Eh, Em, Es, Eu. congruence.
  - intros E. injection E as -> -> -> -> ->.
    now rewrite !Z.compare_refl.
Qed.

Lemma dt_eqb_eq (a b : datetime) : dt_eqb a b = true <-> a = b.
Proof.
  unfold dt_eqb. rewrite <- dt_compare_eq.
  destruct (dt_compare a b); split; congruence.
Qed.

Lemma dt_compare_antisym (a b : datetime) :
  dt_compare a b = CompOpp (dt_compare b a).
Proof.
  unfold dt_compare.
  rewrite (Z.compare_antisym (ordinal a)), (Z.compare_antisym (hour a)),
    (Z.compare_antisym (minute a)), (Z.compare_antisym (second a)),
    (Z.compare_antisym (microsecond a)).
  destruct (ordinal a ?= ordinal b), (hour a ?= hour b),
    (minute a ?= minute b), (second a ?= second b),
    (microsecond a ?= microsecond b); reflexivity.
Qed.


(** A timestamp lies between the midnight that starts a day and the next
    midnight exactly when that day is its date. *)
Lemma in_day_date (d : Z) (w : datetime) :
  valid_datetime w ->
  (dt_leb (mkdatetime d 0 0 0 0) w && dt_ltb w (mkdatetime (d + 1) 0 0 0 0)
   = true <-> date w = d).
Proof.
  destruct w as [o h m s u]. unfold valid_datetime, date.
  cbn [ordinal hour minute second microsecond].
  intros (Hh & Hm & Hs & Hu).
  unfold dt_leb, dt_ltb, dt_compare.
  cbn [ordinal hour minute second microsecond].
  rewrite andb_true_iff.
  repeat match goal with
         | |- context [?a ?= ?b] => destruct (Z.compare_spec a b)
         end;
    split; intros; try lia; try tauto;
    try match goal with
    | H : _ /\ _ |- _ => destruct H; discriminate
    end.
Qed.

Section StoreFacts.
Context {V : Type} {num : Num V}.

(** ** Tables *)

Lemma readings_with_readings q l (t : tables V) :
  readings_of q (with_readings q l t) = l.
Proof. destruct q; reflexivity. Qed.

Lemma readings_with_dailies q q' l (t : tables V) :
  readings_of q (with_dailies q' l t) = readings_of q t.
Proof. destruct q, q'; reflexivity. Qed.

Lemma dailies_with_dailies q l (t : tables V) :
  dailies_of q (with_dailies q l t) = l.
Proof. destruct q; reflexivity. Qed.

Lemma dailies_with_readings q q' l (t : tables V) :
  dailies_of q (with_readings q' l t) = dailies_of q t.
Proof. destruct q, q'; reflexivity. Qed.

Lemma dailies_with_dailies_other q q' l (t : tables V) :
  q <> q' -> dailies_of q (with_dailies q' l t) = dailies_of q t.
Proof. destruct q, q'; intros; reflexivity || contradiction. Qed.

Lemma readings_with_readings_other q q' l (t : tables V) :
  q <> q' -> readings_of q (with_readings q' l t) = readings_of q t.
Proof. destruct q, q'; intros; reflexivity || contradiction. Qed.

Lemma with_dailies_same q (t : tables V) :
  with_dailies q (dailies_of q t) t = t.
Proof. destruct q, t; reflexivity. Qed.

(** A new rowid is above every rowid in use. *)
Lemma next_rowid_fresh {D} (rows : list (row D)) (r : row D) :
  In r rows -> rowid r < next_rowid rows.
Proof.
  unfold next_rowid. induction rows as [| x rows IH]; simpl; [tauto |].
  intros [-> | Hin]; [lia |]. specialize (IH Hin). lia.
Qed.

(** ** The sort of [ORDER BY ... DESC] *)

Lemma insert_desc_perm x (l : list (row (reading V))) :
  Permutation (insert_desc x l) (x :: l).
Proof.
  induction l as [| y l IH]; simpl; [reflexivity |].
  destruct (vleb (value (cols y)) (value (cols x))); [reflexivity |].
  rewrite IH. apply perm_swap.
Qed.

Lemma order_by_desc_perm (l : list (row (reading V))) :
  Permutation (order_by_desc l) l.
Proof.
  induction l as [| x l IH]; simpl; [reflexivity |].
  rewrite insert_desc_perm. now constructor.
Qed.

Lemma order_by_desc_nil (l : list (row (reading V))) :
  order_by_desc l = [] <-> l = [].
Proof.
  split; [| intros ->; reflexivity].
  intros E. pose proof (order_by_desc_perm l) as P. rewrite E in P.
  now apply Permutation_nil in P.
Qed.

(** ** Interval queries *)

Lemma select_where_criteria {D T} (date_field : D -> T)
    (cmp : T -> T -> comparison) (args : criteria T) (rows : list (row D)) :
  select_where date_field cmp
    (fst (add_date_criteria_to_query [] args []))
    (snd (add_date_criteria_to_query [] args [])) rows
  = filter (fun r => selected cmp args (date_field (cols r))) rows.
Proof.
  unfold select_where. apply filter_ext. intros r.
  destruct args as [[e |] [b |] [a |]]; unfold selected; simpl;
    repeat match goal with
           | |- context [cmp ?x ?y] => destruct (cmp x y)
           end; reflexivity.
Qed.

Lemma collection_get_filter q (args : criteria datetime) (c : conn V) :
  collection_get q args c
  = (c, Ok (filter (fun r => selected dt_compare args (when_recorded (cols r)))
                   (readings_of q (store c)))).
Proof.
  unfold collection_get.
  rewrite <- select_where_criteria.
  destruct (add_date_criteria_to_query [] args []) as [query query_args].
  reflexivity.
Qed.

Lemma daily_collection_get_filter q (args : criteria Z) (c : conn V) :
  daily_collection_get q args c
  = (c, Ok (filter (fun r => selected Z.compare args (day (cols r)))
                   (dailies_of q (store c)))).
Proof.
  unfold daily_collection_get.
  rewrite <- select_where_criteria.
  destruct (add_date_criteria_to_query [] args []) as [query query_args].
  reflexivity.
Qed.

Lemma filter_ascending {D T} (date_field : D -> T)
    (cmp : T -> T -> comparison) (keep : row D -> bool) (rows : list (row D)) :
  ascending date_field cmp rows ->
  ascending date_field cmp (filter keep rows).
Proof.
  unfold ascending. induction 1 as [| x l Hs IH Hall]; simpl; [constructor |].
  destruct (keep x); [| exact IH].
  constructor; [exact IH |].
  rewrite Forall_forall in *. intros y Hy.
  apply filter_In in Hy. now apply Hall.
Qed.

(** C5.  An interval query selects the rows of the table that satisfy its
    criteria, each once and nothing else.  With [exactly] these are the rows
    whose time field equals it, whatever [before] and [after] say; without
    it they are the rows at or before [before] and at or after [after], for
    those of the two that are present, and every row when none is. *)
Theorem interval_query_criteria (q : quantity) (c : conn V) :
  (forall args : criteria datetime,
     collection_get q args c
     = (c, Ok (filter
                 (fun r => selected dt_compare args (when_recorded (cols r)))
                 (readings_of q (store c))))) /\
  (forall args : criteria Z,
     daily_collection_get q args c
     = (c, Ok (filter (fun r => selected Z.compare args (day (cols r)))
                      (dailies_of q (store c))))) /\
  (forall (args : criteria datetime) (w : datetime),
     selected dt_compare args w = true <->
     match exactly args with
     | Some e => w = e
     | None =>
         (forall b, before args = Some b -> dt_leb w b = true) /\
         (forall a, after args = Some a -> dt_leb a w = true)
     end) /\
  (forall (args : criteria Z) (d : Z),
     selected Z.compare args d = true <->
     match exactly args with
     | Some e => d = e
     | None =>
         (forall b, before args = Some b -> d <= b) /\
         (forall a, after args = Some a -> a <= d)
     end) /\
  (forall e b a w,
     selected dt_compare (mkcriteria (Some e) b a) w
     = selected dt_compare (mkcriteria (Some e) None None) w) /\
  (forall e b a d,
     selected Z.compare (mkcriteria (Some e) b a) d
     = selected Z.compare (mkcriteria (Some e) None None) d).
Proof.
  split; [intros; apply collection_get_filter |].
  split; [intros; apply daily_collection_get_filter |].
  split; [| split; [| split; reflexivity]].
  - intros [[e |] b a] w; unfold selected; simpl.
    + rewrite <- dt_compare_eq. destruct (dt_compare w e); split; congruence.
    + rewrite andb_true_iff. unfold dt_leb.
      split.
      * intros [Hb Ha]. split.
        -- intros b' ->. exact Hb.
        -- intros a' ->. rewrite dt_compare_antisym.
           destruct (dt_compare w a'); simpl; congruence.
      * intros [Hb Ha]. split.
        -- destruct b as [b' |]; [apply (Hb b' eq_refl) | reflexivity].
        -- destruct a as [a' |]; [| reflexivity].
           specialize (Ha a' eq_refl). rewrite dt_compare_antisym in Ha.
           destruct (dt_compare w a'); simpl in *; congruence.
  - intros [[e |] b a] d; unfold selected; simpl.
    + rewrite <- Z.compare_eq_iff. destruct (d ?= e); split; congruence.
    + rewrite andb_true_iff. split.
      * intros [Hb Ha]. split.
        -- intros b' ->. destruct (Z.compare_spec d b'); [lia | lia | discriminate].
        -- intros a' ->. destruct (Z.compare_spec d a'); [lia | discriminate | lia].
      * intros [Hb Ha]. split.
        -- destruct b as [b' |]; [| reflexivity]. specialize (Hb b' eq_refl).
           destruct (Z.compare_spec d b'); [reflexivity | reflexivity | lia].
        -- destruct a as [a' |]; [| reflexivity]. specialize (Ha a' eq_refl).
           destruct (Z.compare_spec d a'); [reflexivity | lia | reflexivity].
Qed.


(** ** The recomputation of a day *)

Lemma update_daily_unfold q (day : datetime) (c : conn V) :
  update_daily q day c =
  match order_by_desc (day_readings q day (store c)) with
  | [] => (c, Ok tt)
  | high :: temps' =>
      let t' :=
        with_dailies q
          (upsert (date day) (daily_data day high (high :: temps'))
                  (dailies_of q (store c)))
          (store c) in
      (mkconn t' (t' :: commits c), Ok tt)
  end.
Proof.
  unfold update_daily, day_readings, bind, query_database.
  destruct (order_by_desc _) as [| high temps']; [reflexivity |].
  unfold upsert, select_day.
  destruct (hd_error _) as [e |]; reflexivity.
Qed.

Lemma upsert_select (d : Z) (data : daily V) (rows : list (row (daily V))) :
  day data = d ->
  hd_error (filter (fun r => day (cols r) =? d) (upsert d data rows))
  = Some (mkrow
            (match hd_error (filter (fun r => day (cols r) =? d) rows) with
             | Some e => rowid e
             | None => next_rowid rows
             end) data).
Proof.
  intros Hd. unfold upsert.
  destruct (hd_error (filter _ rows)) as [e |] eqn:He.
  - induction rows as [| x rows IH]; simpl in *; [discriminate |].
    destruct (day (cols x) =? d) eqn:Ex; simpl in He.
    + injection He as ->. rewrite Z.eqb_refl. simpl.
      rewrite Hd, Z.eqb_refl. reflexivity.
    + destruct (rowid x =? rowid e) eqn:Eid; simpl.
      * rewrite Hd, Z.eqb_refl. simpl. apply Z.eqb_eq in Eid.
        now rewrite Eid.
      * rewrite Ex. now apply IH.
  - rewrite filter_app. simpl. rewrite Hd, Z.eqb_refl.
    destruct (filter _ rows); [reflexivity | discriminate].
Qed.

Lemma update_daily_ok q (day : datetime) (c : conn V) :
  snd (update_daily q day c) = Ok tt.
Proof.
  rewrite update_daily_unfold. now destruct (order_by_desc _).
Qed.

Lemma update_daily_readings q q' (day : datetime) (c : conn V) :
  readings_of q' (store (fst (update_daily q day c)))
  = readings_of q' (store c).
Proof.
  rewrite update_daily_unfold. destruct (order_by_desc _); [reflexivity |].
  simpl. apply readings_with_dailies.
Qed.

Lemma median_index {A} (l : list A) (d : A) :
  l <> [] -> nth_error l (length l / 2) = Some (nth (length l / 2) l d).
Proof.
  intros Hl. apply nth_error_nth'.
  destruct l; [contradiction |]. apply Nat.div_lt; simpl; lia.
Qed.

(** ** Ingestion *)

Lemma post_unfold q (utcnow : datetime) (json : request_json V) (c : conn V) :
  post q utcnow json c =
  match document_schema_load q json with
  | Err e => (c, Err e)
  | Ok doc =>
      match normalise_when
              (match l_when_recorded doc with Some w => w | None => utcnow end)
              (l_resolution doc) with
      | Err e => (c, Err e)
      | Ok when =>
          match select_when q when (store c) with
          | Some e => (c, Err (Conflict (rowid e)))
          | None =>
              let id := next_rowid (readings_of q (store c)) in
              let data :=
                mkreading when (l_value doc) (l_sensor_temperature doc)
                          (l_resolution doc) in
              let mid :=
                with_readings q (readings_of q (store c) ++ [mkrow id data])
                              (store c) in
              (fst (update_daily q when (mkconn mid (mid :: commits c))),
               Ok id)
          end
      end
  end.
Proof.
  unfold post, bind, lift, normalise_for_resolution.
  destruct (document_schema_load q json) as [doc | e]; [| reflexivity].
  destruct (normalise_when _ _) as [when | e]; [| reflexivity].
  simpl. unfold query_database.
  destruct (select_when q when (store c)) as [e |]; [reflexivity |].
  unfold perform_insert, bind, query_database, execute, commit, ret; simpl.
  match goal with
  | |- context [update_daily q when ?c1] =>
      pose proof (update_daily_ok q when c1) as Hok;
      destruct (update_daily q when c1) as [c' r]
  end.
  simpl in *. rewrite Hok. reflexivity.
Qed.

Lemma hd_error_filter_none {A} (p : A -> bool) (l : list A) :
  hd_error (filter p l) = None -> filter p l = [].
Proof. destruct (filter p l); [reflexivity | discriminate]. Qed.

Lemma hd_error_filter_some {A} (p : A -> bool) (l : list A) (x : A) :
  hd_error (filter p l) = Some x -> In x l /\ p x = true.
Proof.
  intros E. apply filter_In.
  destruct (filter p l); [discriminate |]. injection E as ->. now left.
Qed.


(** C10.  An ingestion is refused with a conflict only when a reading is
    stored at the timestamp it normalises to; the conflict carries the rowid
    of that reading, and the connection is as it was: no row is written, no
    rollup is recomputed, nothing is committed. *)
Theorem post_conflict_unchanged (q : quantity) (utcnow : datetime)
    (json : request_json V) (c c' : conn V) (id : Z) :
  post q utcnow json c = (c', Err (Conflict id)) ->
  c' = c /\
  exists when existing,
    normalized_when q utcnow json = Ok when /\
    In existing (readings_of q (store c)) /\
    when_recorded (cols existing) = when /\
    rowid existing = id.
Proof.
  rewrite post_unfold. unfold normalized_when.
  destruct (document_schema_load q json) as [doc | e] eqn:L; simpl.
  2: { intros E. injection E as <- ->.
       unfold document_schema_load in L.
       destruct (j_value json), q, (j_sensor_temperature json);
         discriminate. }
  destruct (normalise_when _ _) as [when | e] eqn:Hn.
  2: { intros E. injection E as <- ->.
       unfold normalise_when in Hn.
       destruct (l_resolution doc =? 0); discriminate. }
  destruct (select_when q when (store c)) as [e |] eqn:Hsel.
  - intros E. injection E as <- <-. split; [reflexivity |].
    exists when, e. split; [reflexivity |].
    unfold select_when in Hsel. apply hd_error_filter_some in Hsel.
    destruct Hsel as [Hin Heq]. apply dt_eqb_eq in Heq. auto.
  - intros E. discriminate.
Qed.

(** ** Correction *)

Lemma put_unfold q (id : Z) (json : request_json V) (c : conn V) :
  put q id json c =
  match put_schema_load q json with
  | Err e => (c, Err e)
  | Ok data =>
      match select_rowid q id (store c) with
      | None => (c, Err NotFound)
      | Some result =>
          match data with
          | [] => (c, Err OperationalError)
          | _ =>
              let mid :=
                with_readings q
                  (map (fun r =>
                          if rowid r =? id
                          then mkrow (rowid r)
                                 (fold_left (fun d set => set d) data (cols r))
                          else r)
                       (readings_of q (store c)))
                  (store c) in
              (fst (update_daily q (when_recorded (cols result))
                      (mkconn mid (mid :: commits c))),
               Ok tt)
          end
      end
  end.
Proof.
  unfold put, bind, lift, query_database.
  destruct (put_schema_load q json) as [data | e]; [| reflexivity].
  destruct (select_rowid q id (store c)) as [result |]; [| reflexivity].
  destruct data as [| set data]; [reflexivity |].
  unfold perform_update, bind, execute, commit, ret; simpl.
  match goal with
  | |- context [update_daily q ?w ?c1] =>
      pose proof (update_daily_ok q w c1) as Hok;
      destruct (update_daily q w c1) as [c' r]
  end.
  simpl in *. rewrite Hok. reflexivity.
Qed.

(** The dictionary a PUT body is loaded into assigns the fields that were
    sent. *)
Lemma put_schema_load_corrected q (json : request_json V) data :
  put_schema_load q json = Ok data ->
  forall d, fold_left (fun d set => set d) data d = corrected json d.
Proof.
  unfold put_schema_load, corrected.
  destruct (j_when_recorded json); [discriminate |].
  destruct (j_resolution json); [discriminate |].
  destruct q, (j_value json), (j_sensor_temperature json);
    intros E; try discriminate; injection E as <-; intros [];
    reflexivity.
Qed.



Lemma put_mid_corrected q (id : Z) (json : request_json V) data
    (rows : list (row (reading V))) :
  put_schema_load q json = Ok data ->
  map (fun r => if rowid r =? id
                then mkrow (rowid r)
                       (fold_left (fun d set => set d) data (cols r))
                else r) rows
  = map (fun r => if rowid r =? id
                  then mkrow (rowid r) (corrected json (cols r)) else r) rows.
Proof.
  intros Hload. apply map_ext. intros x.
  destruct (rowid x =? id); [| reflexivity].
  now rewrite (put_schema_load_corrected q json data Hload).
Qed.


(** ** The daily tables under requests *)

Lemma quantity_eq_dec (q q' : quantity) : {q = q'} + {q <> q'}.
Proof. decide equality. Qed.

Lemma NoDup_snoc {A} (l : list A) (x : A) :
  NoDup l -> ~ In x l -> NoDup (l ++ [x]).
Proof.
  intros Hl Hx. apply (Permutation_NoDup (Permutation_cons_append l x)).
  now constructor.
Qed.

(** With distinct rowids the update of the upsert rewrites one row. *)
Lemma upsert_existing (d : Z) (data : daily V) (rows : list (row (daily V)))
    (e : row (daily V)) :
  NoDup (map rowid rows) ->
  hd_error (filter (fun r => day (cols r) =? d) rows) = Some e ->
  exists l1 l2,
    rows = l1 ++ e :: l2 /\
    upsert d data rows = l1 ++ mkrow (rowid e) data :: l2.
Proof.
  intros Hnd He. unfold upsert. rewrite He.
  apply hd_error_filter_some in He. destruct He as [Hin _].
  apply in_split in Hin. destruct Hin as (l1 & l2 & ->).
  exists l1, l2. split; [reflexivity |].
  rewrite map_app in Hnd. simpl in Hnd.
  apply NoDup_remove_2 in Hnd.
  assert (Hid : forall l, (forall r, In r l -> In (rowid r) (map rowid l1 ++ map rowid l2)) ->
            map (fun r => if rowid r =? rowid e
                          then mkrow (rowid r) data else r) l = l).
  { intros l Hl. rewrite <- (map_id l) at 2. apply map_ext_in.
    intros r Hr. destruct (rowid r =? rowid e) eqn:E; [| reflexivity].
    apply Z.eqb_eq in E. exfalso. apply Hnd. rewrite <- E. now apply Hl. }
  rewrite map_app. simpl. rewrite Z.eqb_refl.
  rewrite (Hid l1), (Hid l2); [reflexivity | |];
    intros r Hr; apply in_or_app; [right | left]; now apply in_map.
Qed.

Lemma upsert_missing (d : Z) (data : daily V) (rows : list (row (daily V))) :
  hd_error (filter (fun r => day (cols r) =? d) rows) = None ->
  upsert d data rows = rows ++ [mkrow (next_rowid rows) data] /\
  ~ In d (map (fun r => day (cols r)) rows).
Proof.
  intros He. unfold upsert. rewrite He. split; [reflexivity |].
  apply hd_error_filter_none in He.
  intros Hin. apply in_map_iff in Hin. destruct Hin as (r & Hd & Hr).
  assert (Hf : In r (filter (fun r => day (cols r) =? d) rows)).
  { apply filter_In. split; [exact Hr | now apply Z.eqb_eq]. }
  rewrite He in Hf. contradiction.
Qed.

Lemma next_rowid_not_in {D} (rows : list (row D)) :
  ~ In (next_rowid rows) (map rowid rows).
Proof.
  intros Hin. apply in_map_iff in Hin. destruct Hin as (r & E & Hr).
  apply next_rowid_fresh in Hr. lia.
Qed.

Lemma day_readings_midnight q (day : datetime) (t : tables V) :
  day_readings q (mkdatetime (date day) 0 0 0 0) t = day_readings q day t.
Proof. reflexivity. Qed.

Lemma day_readings_with_dailies q q' l (day : datetime) (t : tables V) :
  day_readings q day (with_dailies q' l t) = day_readings q day t.
Proof. unfold day_readings. now rewrite readings_with_dailies. Qed.

(** The recomputation of a day keeps the invariant. *)
Lemma update_daily_invariant q (w : datetime) (c : conn V) :
  daily_invariant (store c) ->
  daily_invariant (store (fst (update_daily q w c))).
Proof.
  intros Hinv. rewrite update_daily_unfold.
  destruct (order_by_desc (day_readings q w (store c)))
    as [| hi rest] eqn:Es; [exact Hinv |].
  cbn [fst store]. intros q'.
  destruct (Hinv q') as (Hid & Hday & Hhas).
  destruct (quantity_eq_dec q' q) as [-> | Hne].
  2: { rewrite dailies_with_dailies_other by exact Hne.
       split; [exact Hid |]. split; [exact Hday |].
       intros r Hr. rewrite day_readings_with_dailies. now apply Hhas. }
  rewrite dailies_with_dailies.
  set (data := daily_data w hi (hi :: rest)).
  assert (Hnonempty : day_readings q w (store c) <> []).
  { intros E. rewrite E in Es. discriminate. }
  destruct (hd_error (filter (fun r => day (cols r) =? date w)
                             (dailies_of q (store c)))) as [e |] eqn:He.
  - pose proof He as He'. apply hd_error_filter_some in He'.
    destruct He' as [_ Hde]. apply Z.eqb_eq in Hde.
    destruct (upsert_existing (date w) data _ e Hid He)
      as (l1 & l2 & Hrows & Hup).
    rewrite Hup. rewrite Hrows in Hid, Hday, Hhas.
    rewrite !map_app in *. cbn [map rowid cols] in *.
    split; [exact Hid |].
    split; [unfold data at 1; cbn [daily_data day];
            rewrite <- Hde; exact Hday |].
    intros r Hr. rewrite day_readings_with_dailies.
    apply in_app_or in Hr. destruct Hr as [Hr | [<- | Hr]].
    + apply Hhas. apply in_or_app. now left.
    + exact Hnonempty.
    + apply Hhas. apply in_or_app. right. now right.
  - destruct (upsert_missing (date w) data _ He) as [Hup Hnot].
    rewrite Hup. rewrite !map_app. cbn [map rowid cols].
    split; [apply NoDup_snoc; [exact Hid | apply next_rowid_not_in] |].
    split; [apply NoDup_snoc; [exact Hday | exact Hnot] |].
    intros r Hr. rewrite day_readings_with_dailies.
    apply in_app_or in Hr. destruct Hr as [Hr | [<- | []]].
    + now apply Hhas.
    + exact Hnonempty.
Qed.

(** A change of the readings that empties no day keeps the invariant. *)
Lemma readings_change_invariant (t t' : tables V) :
  daily_invariant t ->
  (forall q, dailies_of q t' = dailies_of q t) ->
  (forall q day, day_readings q day t <> [] -> day_readings q day t' <> []) ->
  daily_invariant t'.
Proof.
  intros Hinv Hd Hr q. destruct (Hinv q) as (Hid & Hday & Hhas).
  rewrite Hd. split; [exact Hid |]. split; [exact Hday |].
  intros r Hin. apply Hr. now apply Hhas.
Qed.

Lemma filter_map_same {A} (p : A -> bool) (g : A -> A) (l : list A) :
  (forall x, p (g x) = p x) -> filter p (map g l) = map g (filter p l).
Proof.
  intros Hp. induction l as [| x l IH]; simpl; [reflexivity |].
  rewrite Hp. destruct (p x); simpl; now rewrite IH.
Qed.

Lemma insert_reading_invariant q (x : row (reading V)) (t : tables V) :
  daily_invariant t ->
  daily_invariant (with_readings q (readings_of q t ++ [x]) t).
Proof.
  intros Hinv. apply (readings_change_invariant t); [exact Hinv | |].
  - intros q'. apply dailies_with_readings.
  - intros q' day. unfold day_readings.
    destruct (quantity_eq_dec q' q) as [-> | Hne].
    + rewrite readings_with_readings, filter_app.
      destruct (filter _ (readings_of q t)); [congruence | discriminate].
    + now rewrite readings_with_readings_other.
Qed.

Lemma update_reading_invariant q (id : Z) (json : request_json V)
    (t : tables V) :
  daily_invariant t ->
  daily_invariant
    (with_readings q
       (map (fun r => if rowid r =? id
                      then mkrow (rowid r) (corrected json (cols r)) else r)
            (readings_of q t)) t).
Proof.
  intros Hinv. apply (readings_change_invariant t); [exact Hinv | |].
  - intros q'. apply dailies_with_readings.
  - intros q' day. unfold day_readings.
    destruct (quantity_eq_dec q' q) as [-> | Hne].
    + rewrite readings_with_readings, filter_map_same.
      * destruct (filter _ (readings_of q t)); [congruence | discriminate].
      * intros x. destruct (rowid x =? id); reflexivity.
    + now rewrite readings_with_readings_other.
Qed.

Lemma handle_invariant (r : request V) (c : conn V) :
  daily_invariant (store c) -> daily_invariant (store (handle r c)).
Proof.
  intros Hinv. destruct r as [q utcnow json | q id json | q day]; simpl.
  - rewrite post_unfold.
    destruct (document_schema_load q json); [| exact Hinv].
    destruct (normalise_when _ _) as [when |]; [| exact Hinv].
    destruct (select_when q when (store c)); [exact Hinv |].
    cbn [fst]. apply update_daily_invariant. cbn [store].
    now apply insert_reading_invariant.
  - rewrite put_unfold.
    destruct (put_schema_load q json) as [data |] eqn:Hload; [| exact Hinv].
    destruct (select_rowid q id (store c)); [| exact Hinv].
    destruct data as [| set data]; [exact Hinv |].
    cbn [fst]. apply update_daily_invariant. cbn [store].
    rewrite (put_mid_corrected q id json _ _ Hload).
    now apply update_reading_invariant.
  - now apply update_daily_invariant.
Qed.

Lemma serve_invariant (requests : list (request V)) (c : conn V) :
  daily_invariant (store c) -> daily_invariant (store (serve requests c)).
Proof.
  revert c. induction requests as [| r requests IH]; intros c Hinv;
    [exact Hinv |].
  simpl. apply IH. now apply handle_invariant.
Qed.

Lemma empty_invariant : daily_invariant (store (@empty_conn V)).
Proof.
  intros q. destruct q; simpl; repeat split; try constructor; intros r [].
Qed.


(** ** Commits *)

Lemma with_dailies_twice q l l' (t : tables V) :
  with_dailies q l (with_dailies q l' t) = with_dailies q l t.
Proof. destruct q; reflexivity. Qed.

(** The upsert of the same data for the same day changes nothing the second
    time. *)
Lemma upsert_twice (d : Z) (data : daily V) (rows : list (row (daily V))) :
  day data = d ->
  upsert d data (upsert d data rows) = upsert d data rows.
Proof.
  intros Hd. unfold upsert at 1. rewrite (upsert_select d data rows Hd).
  cbn [rowid]. rewrite <- (map_id (upsert d data rows)) at 2.
  apply map_ext_in. intros r Hr.
  destruct (rowid r =? _) eqn:E; [| reflexivity].
  apply Z.eqb_eq in E. unfold upsert in Hr.
  destruct (hd_error (filter _ rows)) as [e |].
  - apply in_map_iff in Hr. destruct Hr as (x & <- & _).
    destruct (rowid x =? rowid e) eqn:Ex; [reflexivity |].
    apply Z.eqb_neq in Ex. contradiction.
  - apply in_app_or in Hr. destruct Hr as [Hr | [<- | []]]; [| reflexivity].
    apply next_rowid_fresh in Hr. lia.
Qed.

(** After its recomputation the rollup of a day is up to date. *)
Lemma update_daily_up_to_date q (day : datetime) (c : conn V) :
  up_to_date q day (store (fst (update_daily q day c))).
Proof.
  unfold up_to_date. rewrite (update_daily_unfold q day c).
  destruct (order_by_desc (day_readings q day (store c)))
    as [| hi rest] eqn:Es; cbn [fst store].
  - rewrite update_daily_unfold. cbn [store]. now rewrite Es.
  - rewrite update_daily_unfold. cbn [store].
    rewrite day_readings_with_dailies, Es. cbn [fst store].
    rewrite dailies_with_dailies, with_dailies_twice.
    now rewrite upsert_twice.
Qed.

(** A recomputation commits once when the day has readings and not at all
    when it has none. *)
Lemma update_daily_commits q (day : datetime) (c : conn V) :
  (day_readings q day (store c) = [] /\ fst (update_daily q day c) = c) \/
  (day_readings q day (store c) <> [] /\
   commits (fst (update_daily q day c))
   = store (fst (update_daily q day c)) :: commits c).
Proof.
  rewrite update_daily_unfold.
  destruct (order_by_desc (day_readings q day (store c))) eqn:Es.
  - left. split; [now apply order_by_desc_nil | reflexivity].
  - right. split; [| reflexivity].
    intros E. rewrite E in Es. discriminate.
Qed.

Lemma update_daily_dailies_other q q' (day : datetime) (c : conn V) :
  q' <> q ->
  dailies_of q' (store (fst (update_daily q day c))) = dailies_of q' (store c).
Proof.
  intros Hne. rewrite update_daily_unfold.
  destruct (order_by_desc _); [reflexivity |].
  cbn [fst store]. now apply dailies_with_dailies_other.
Qed.



(** ** The order of the tables *)

Lemma rowid_order_snoc {D} (rows : list (row D)) (data : D) :
  rowid_order rows -> rowid_order (rows ++ [mkrow (next_rowid rows) data]).
Proof.
  unfold rowid_order. intros Hs.
  assert (Hlt : Forall (fun i => i < next_rowid rows) (map rowid rows)).
  { apply Forall_forall. intros i Hi. apply in_map_iff in Hi.
    destruct Hi as (r & <- & Hr). now apply next_rowid_fresh. }
  rewrite map_app. cbn [map rowid].
  induction Hs as [| i l Hs IH Hall]; simpl.
  - repeat constructor.
  - inversion Hlt as [| ? ? Hi Hlt']; subst.
    constructor; [now apply IH |].
    apply Forall_app. split; [exact Hall | now repeat constructor].
Qed.

Lemma rowid_order_map {D} (f : row D -> row D) (rows : list (row D)) :
  (forall r, rowid (f r) = rowid r) ->
  rowid_order rows -> rowid_order (map f rows).
Proof.
  unfold rowid_order. intros Hf Hs. rewrite map_map.
  now rewrite (map_ext _ rowid Hf).
Qed.

Lemma rowid_order_filter {D} (keep : row D -> bool) (rows : list (row D)) :
  rowid_order rows -> rowid_order (filter keep rows).
Proof.
  unfold rowid_order. induction rows as [| x rows IH]; simpl; intros Hs;
    [constructor |].
  inversion Hs as [| ? ? Hs' Hall]; subst.
  destruct (keep x); [| now apply IH].
  simpl. constructor; [now apply IH |].
  rewrite Forall_forall in *. intros i Hi. apply Hall.
  apply in_map_iff in Hi. destruct Hi as (r & <- & Hr).
  apply filter_In in Hr. apply in_map. tauto.
Qed.

Lemma rowid_order_upsert (d : Z) (data : daily V)
    (rows : list (row (daily V))) :
  rowid_order rows -> rowid_order (upsert d data rows).
Proof.
  intros Hs. unfold upsert. destruct (hd_error _) as [e |].
  - apply rowid_order_map; [| exact Hs].
    intros r. destruct (rowid r =? rowid e); reflexivity.
  - now apply rowid_order_snoc.
Qed.

Lemma update_daily_in_order q (w : datetime) (c : conn V) :
  tables_in_order (store c) ->
  tables_in_order (store (fst (update_daily q w c))).
Proof.
  intros Hord. rewrite update_daily_unfold.
  destruct (order_by_desc _); [exact Hord |].
  cbn [fst store]. intros q'. destruct (Hord q') as [Hr Hd].
  rewrite readings_with_dailies. split; [exact Hr |].
  destruct (quantity_eq_dec q' q) as [-> | Hne].
  - rewrite dailies_with_dailies. apply rowid_order_upsert.
    exact (proj2 (Hord q)).
  - now rewrite dailies_with_dailies_other.
Qed.

Lemma with_readings_in_order q (l : list (row (reading V))) (t : tables V) :
  tables_in_order t -> rowid_order l ->
  tables_in_order (with_readings q l t).
Proof.
  intros Hord Hl q'. destruct (Hord q') as [Hr Hd].
  rewrite dailies_with_readings. split; [| exact Hd].
  destruct (quantity_eq_dec q' q) as [-> | Hne].
  - now rewrite readings_with_readings.
  - now rewrite readings_with_readings_other.
Qed.

Lemma handle_in_order (r : request V) (c : conn V) :
  tables_in_order (store c) -> tables_in_order (store (handle r c)).
Proof.
  intros Hord. destruct r as [q utcnow json | q id json | q w]; simpl.
  - rewrite post_unfold.
    destruct (document_schema_load q json); [| exact Hord].
    destruct (normalise_when _ _) as [when |]; [| exact Hord].
    destruct (select_when q when (store c)); [exact Hord |].
    cbn [fst]. apply update_daily_in_order. cbn [store].
    apply with_readings_in_order; [exact Hord |].
    apply rowid_order_snoc. exact (proj1 (Hord q)).
  - rewrite put_unfold.
    destruct (put_schema_load q json) as [data |]; [| exact Hord].
    destruct (select_rowid q id (store c)); [| exact Hord].
    destruct data as [| set data]; [exact Hord |].
    cbn [fst]. apply update_daily_in_order. cbn [store].
    apply with_readings_in_order; [exact Hord |].
    apply rowid_order_map; [| exact (proj1 (Hord q))].
    intros x. destruct (rowid x =? id); reflexivity.
  - now apply update_daily_in_order.
Qed.

Lemma serve_in_order (requests : list (request V)) (c : conn V) :
  tables_in_order (store c) -> tables_in_order (store (serve requests c)).
Proof.
  revert c. induction requests as [| r requests IH]; intros c Hord;
    [exact Hord |].
  simpl. apply IH. now apply handle_in_order.
Qed.

Lemma empty_in_order : tables_in_order (store (@empty_conn V)).
Proof. intros q. destruct q; split; constructor. Qed.

(** C3 (amended).  An interval query returns the rows it selects in the order
    of the table, which is the order of their insertion: with no criteria it
    returns the table as it is, in a state reached from the empty database
    its result comes with increasing rowids, and its result is ascending by
    the time field whenever the table is. *)
Theorem interval_query_order (q : quantity) :
  (forall (c : conn V) (args : criteria datetime),
     exists keep,
       collection_get q args c
       = (c, Ok (filter keep (readings_of q (store c)))) /\
       (ascending when_recorded dt_compare (readings_of q (store c)) ->
        ascending when_recorded dt_compare
          (filter keep (readings_of q (store c))))) /\
  (forall (c : conn V) (args : criteria Z),
     exists keep,
       daily_collection_get q args c
       = (c, Ok (filter keep (dailies_of q (store c)))) /\
       (ascending day Z.compare (dailies_of q (store c)) ->
        ascending day Z.compare (filter keep (dailies_of q (store c))))) /\
  (forall c : conn V,
     collection_get q (mkcriteria None None None) c
     = (c, Ok (readings_of q (store c))) /\
     daily_collection_get q (mkcriteria None None None) c
     = (c, Ok (dailies_of q (store c)))) /\
  (forall (requests : list (request V)) (args : criteria datetime),
     exists rows,
       snd (collection_get q args (serve requests empty_conn)) = Ok rows /\
       rowid_order rows) /\
  (forall (requests : list (request V)) (args : criteria Z),
     exists rows,
       snd (daily_collection_get q args (serve requests empty_conn)) = Ok rows
       /\ rowid_order rows).
Proof.
  split; [| split; [| split; [| split]]].
  - intros c args. eexists. split; [apply collection_get_filter |].
    apply filter_ascending.
  - intros c args. eexists. split; [apply daily_collection_get_filter |].
    apply filter_ascending.
  - intros c. split.
    + rewrite collection_get_filter. do 2 f_equal.
      apply forallb_filter_id. apply forallb_forall. reflexivity.
    + rewrite daily_collection_get_filter. do 2 f_equal.
      apply forallb_filter_id. apply forallb_forall. reflexivity.
  - intros requests args. eexists.
    rewrite collection_get_filter. split; [reflexivity |].
    apply rowid_order_filter.
    exact (proj1 (serve_in_order requests empty_conn empty_in_order q)).
  - intros requests args. eexists.
    rewrite daily_collection_get_filter. split; [reflexivity |].
    apply rowid_order_filter.
    exact (proj2 (serve_in_order requests empty_conn empty_in_order q)).
Qed.

Lemma insert_desc_sorted x (l : list (row (reading V))) :
  (forall y, In y l -> desc x y \/ desc y x) ->
  Sorted desc l -> Sorted desc (insert_desc x l).
Proof.
  induction l as [| y l IH]; simpl; intros Hcmp Hs.
  - repeat constructor.
  - destruct (vleb (value (cols y)) (value (cols x))) eqn:E.
    + constructor; [assumption |]. constructor. exact E.
    + inversion Hs as [| ? ? Hs' Hhd]; subst.
      constructor; [apply IH; auto |].
      assert (Hyx : desc y x).
      { destruct (Hcmp y (or_introl eq_refl)) as [Hxy | Hyx];
          [unfold desc in Hxy; congruence | exact Hyx]. }
      destruct l as [| z l]; simpl.
      * constructor. exact Hyx.
      * destruct (vleb (value (cols z)) (value (cols x)));
          constructor; [exact Hyx |].
        now inversion Hhd.
Qed.

(** When the values of the rows can be compared with each other, what
    [ORDER BY ... DESC] returns is in descending order. *)
Lemma order_by_desc_sorted (l : list (row (reading V))) :
  (forall a b, In a l -> In b l -> desc a b \/ desc b a) ->
  Sorted desc (order_by_desc l).
Proof.
  induction l as [| x l IH]; simpl; intros Hcmp; [constructor |].
  apply insert_desc_sorted.
  - intros y Hy. apply Hcmp; [now left | right].
    exact (Permutation_in _ (order_by_desc_perm l) Hy).
  - apply IH. intros a b Ha Hb. apply Hcmp; now right.
Qed.

(** C1.  The recomputation of a day reads the readings whose timestamp is at
    or after the midnight that starts the day and before the next midnight,
    which are the readings of that date.  When there are none the database
    is left as it is.  Otherwise, with the readings sorted by value
    descending, the row of the day in the daily table has as [high] the value
    of the first of them, as [low] that of the last, as [median] that of the
    one at index [n / 2], as [mean] their sum divided by their number, and as
    the three timestamps those of the readings chosen for [high], [low] and
    [median]; the readings tables stay as they are.  A day of one reading
    [v] has it in [high], [low] and [median], its timestamp in all three,
    and [(0 + v) / 1] as its mean, which is [v]. *)
Theorem update_daily_recompute (q : quantity) (day : datetime) (c : conn V) :
  (forall a b,
     In a (day_readings q day (store c)) ->
     In b (day_readings q day (store c)) -> desc a b \/ desc b a) ->
  let temps := day_readings q day (store c) in
  temps
  = filter (fun r =>
              dt_leb (mkdatetime (date day) 0 0 0 0) (when_recorded (cols r))
              && dt_ltb (when_recorded (cols r))
                        (mkdatetime (date day + 1) 0 0 0 0))
           (readings_of q (store c)) /\
  (forall r, valid_datetime (when_recorded (cols r)) ->
     (In r temps <->
      In r (readings_of q (store c)) /\
      date (when_recorded (cols r)) = date day)) /\
  (temps = [] -> update_daily q day c = (c, Ok tt)) /\
  (temps <> [] ->
   exists sorted hi lo med id c',
     Permutation sorted temps /\ Sorted desc sorted /\
     hd_error sorted = Some hi /\
     last sorted hi = lo /\
     nth_error sorted (length sorted / 2) = Some med /\
     update_daily q day c = (c', Ok tt) /\
     (forall q', readings_of q' (store c') = readings_of q' (store c)) /\
     select_day q (date day) (store c')
     = Some (mkrow id
               (mkdaily (date day)
                  (value (cols hi)) (value (cols lo))
                  (vdiv (fold_left (fun acc t => vadd acc (value (cols t)))
                                   sorted vzero)
                        (Z.of_nat (length sorted)))
                  (value (cols med))
                  (when_recorded (cols hi)) (when_recorded (cols lo))
                  (when_recorded (cols med))))) /\
  (forall r, temps = [r] ->
     vadd vzero (value (cols r)) = value (cols r) ->
     vdiv (value (cols r)) 1 = value (cols r) ->
     exists id,
       select_day q (date day) (store (fst (update_daily q day c)))
       = Some (mkrow id
                 (mkdaily (date day)
                    (value (cols r)) (value (cols r)) (value (cols r))
                    (value (cols r))
                    (when_recorded (cols r)) (when_recorded (cols r))
                    (when_recorded (cols r))))).
Proof.
  intros Htotal temps.
  split; [reflexivity |].
  split; [| split; [| split]].
  - intros r Hv. unfold temps, day_readings. rewrite filter_In.
    unfold in_day, replace_midnight, add_days; simpl.
    rewrite (in_day_date (ordinal day) _ Hv). reflexivity.
  - intros E. rewrite update_daily_unfold. fold temps. rewrite E. reflexivity.
  - intros Hne.
    pose proof (order_by_desc_perm temps) as Hperm.
    pose proof (order_by_desc_sorted temps Htotal) as Hsorted.
    pose proof (update_daily_unfold q day c) as Hu. fold temps in Hu.
    destruct (order_by_desc temps) as [| hi sorted'] eqn:Es.
    { apply (proj1 (order_by_desc_nil _)) in Es. exfalso. apply Hne. exact Es. }
    simpl in Hu.
    exists (hi :: sorted'), hi, (last (hi :: sorted') hi),
      (nth (length (hi :: sorted') / 2) (hi :: sorted') hi).
    eexists. eexists.
    split; [exact Hperm |]. split; [exact Hsorted |].
    split; [reflexivity |]. split; [reflexivity |].
    split; [apply median_index; discriminate |].
    split; [exact Hu |].
    split; [intros q'; apply readings_with_dailies |].
    cbn [store]. unfold select_day. rewrite dailies_with_dailies.
    rewrite upsert_select by reflexivity. reflexivity.
  - intros r E Hadd Hdiv.
    rewrite update_daily_unfold. fold temps. rewrite E. simpl.
    eexists. unfold select_day. rewrite dailies_with_dailies.
    rewrite upsert_select by reflexivity.
    unfold daily_data; simpl. rewrite Hadd, Hdiv. reflexivity.
Qed.

End StoreFacts.

(** ** Scenarios *)

(** Three readings of a day: the high is 20 at 06:00, the low 10 at 00:15,
    the median the reading at index 1, 15 at 12:00, and the mean 15. *)
Example three_readings_rollup :
  daily_temperature (store three_readings)
  = [mkrow 1 (mkdaily 738000 20%float 10%float 15%float 15%float
                (at_ 6 0) (at_ 0 15) (at_ 12 0))].
Proof. vm_compute. reflexivity. Qed.

(** Four readings 5, 5, 10, 20: the median is the reading at index 2 of 20,
    10, 5, 5, the 5 that was stored first; no average is taken. *)
Example four_readings_rollup :
  daily_temperature (store four_readings)
  = [mkrow 1 (mkdaily 738000 20%float 5%float 10%float 5%float
                (at_ 4 0) (at_ 2 0) (at_ 1 0))].
Proof. vm_compute. reflexivity. Qed.

(** A correction of a pressure reading with an empty body passes the schema
    and fails in the UPDATE statement, which has nothing to set. *)
Example put_pressure_empty_body :
  put Pressure 1 empty_json one_pressure
  = (one_pressure, Err OperationalError).
Proof. vm_compute. reflexivity. Qed.

(** The correction of the reading of 06:00 from 20 to 5 recomputes the day:
    the rollup has nothing of the old high. *)
Example correction_recomputes :
  daily_temperature (store (fst (put Temperature 2 (value_json 5%float)
                                     three_readings)))
  = [mkrow 1 (mkdaily 738000 15%float 5%float 10%float 10%float
                (at_ 12 0) (at_ 6 0) (at_ 0 15))].
Proof. vm_compute. reflexivity. Qed.

(** The recomputation of a day without readings writes nothing. *)
Example empty_day_recompute :
  update_daily Temperature (mkdatetime 738001 9 30 0 0) three_readings
  = (three_readings, Ok tt).
Proof. vm_compute. reflexivity. Qed.

(** [exactly] together with [after]: [after] is not looked at. *)
Example exactly_ignores_after :
  snd (collection_get Temperature
         (mkcriteria (Some (at_ 6 0)) None (Some (at_ 12 0))) three_readings)
  = Ok [mkrow 2 (mkreading (at_ 6 0) 20%float None 15)].
Proof. vm_compute. reflexivity. Qed.

(** Both bounds are inclusive. *)
Example before_and_after :
  snd (collection_get Temperature
         (mkcriteria None (Some (at_ 6 0)) (Some (at_ 0 15))) three_readings)
  = Ok [ mkrow 1 (mkreading (at_ 0 15) 10%float None 15);
         mkrow 2 (mkreading (at_ 6 0) 20%float None 15) ].
Proof. vm_compute. reflexivity. Qed.

(** Minute 53 at resolution 15 is carried into the next hour, and at 23:53
    into the next day. *)
Example carry_into_next_hour :
  normalise_when (mkdatetime 738000 10 53 41 250000) 15
  = Ok (mkdatetime 738000 11 0 0 0).
Proof. reflexivity. Qed.

Example carry_into_next_day :
  normalise_when (mkdatetime 738000 23 53 41 250000) 15
  = Ok (mkdatetime 738001 0 0 0 0).
Proof. reflexivity. Qed.

(** ** The claims at sample data *)

(** C3: the claim as stated fails.  With noon stored before six in the
    morning, the query without criteria returns noon first. *)
Lemma collection_get_not_ascending :
  snd (collection_get Temperature (mkcriteria None None None) late_arrival)
  = Ok [ mkrow 1 (mkreading (at_ 12 0) 15%float None 15);
         mkrow 2 (mkreading (at_ 6 0) 20%float None 15) ] /\
  ~ ascending when_recorded dt_compare
      [ mkrow 1 (mkreading (at_ 12 0) 15%float None 15);
        mkrow 2 (mkreading (at_ 6 0) 20%float None 15) ].
Proof.
  split; [vm_compute; reflexivity |].
  unfold ascending. intros H. inversion H as [| ? ? _ Hall]; subst.
  inversion Hall as [| ? ? Hgt _]; subst. apply Hgt. reflexivity.
Qed.



(** The recomputation of the day of the three readings. *)
Lemma update_daily_recompute_witness :
  (forall a b,
     In a (day_readings Temperature (at_ 9 30) (store three_readings)) ->
     In b (day_readings Temperature (at_ 9 30) (store three_readings)) ->
     desc a b \/ desc b a) /\
  let temps := day_readings Temperature (at_ 9 30) (store three_readings) in
  temps
  = filter (fun r =>
              dt_leb (mkdatetime (date (at_ 9 30)) 0 0 0 0)
                     (when_recorded (cols r))
              && dt_ltb (when_recorded (cols r))
                        (mkdatetime (date (at_ 9 30) + 1) 0 0 0 0))
           (readings_of Temperature (store three_readings)) /\
  (forall r, valid_datetime (when_recorded (cols r)) ->
     (In r temps <->
      In r (readings_of Temperature (store three_readings)) /\
      date (when_recorded (cols r)) = date (at_ 9 30))) /\
  (temps = [] ->
   update_daily Temperature (at_ 9 30) three_readings
   = (three_readings, Ok tt)) /\
  (temps <> [] ->
   exists sorted hi lo med id c',
     Permutation sorted temps /\ Sorted desc sorted /\
     hd_error sorted = Some hi /\
     last sorted hi = lo /\
     nth_error sorted (length sorted / 2) = Some med /\
     update_daily Temperature (at_ 9 30) three_readings = (c', Ok tt) /\
     (forall q', readings_of q' (store c')
                 = readings_of q' (store three_readings)) /\
     select_day Temperature (date (at_ 9 30)) (store c')
     = Some (mkrow id
               (mkdaily (date (at_ 9 30))
                  (value (cols hi)) (value (cols lo))
                  (vdiv (fold_left (fun acc t => vadd acc (value (cols t)))
                                   sorted vzero)
                        (Z.of_nat (length sorted)))
                  (value (cols med))
                  (when_recorded (cols hi)) (when_recorded (cols lo))
                  (when_recorded (cols med))))) /\
  (forall r, temps = [r] ->
     vadd vzero (value (cols r)) = value (cols r) ->
     vdiv (value (cols r)) 1 = value (cols r) ->
     exists id,
       select_day Temperature (date (at_ 9 30))
         (store (fst (update_daily Temperature (at_ 9 30) three_readings)))
       = Some (mkrow id
                 (mkdaily (date (at_ 9 30))
                    (value (cols r)) (value (cols r)) (value (cols r))
                    (value (cols r))
                    (when_recorded (cols r)) (when_recorded (cols r))
                    (when_recorded (cols r))))).
Proof.
  assert (H : forall a b,
             In a (day_readings Temperature (at_ 9 30) (store three_readings))
             ->
             In b (day_readings Temperature (at_ 9 30) (store three_readings))
             -> desc a b \/ desc b a).
  { assert (E : day_readings Temperature (at_ 9 30) (store three_readings)
                = readings_of Temperature (store three_readings))
      by (vm_compute; reflexivity).
    rewrite E. intros a b Ha Hb.
    destruct Ha as [<- | [<- | [<- | []]]];
      destruct Hb as [<- | [<- | [<- | []]]];
      vm_compute; auto. }
  split; [exact H |].
  exact (update_daily_recompute Temperature (at_ 9 30) three_readings H).
Defined.


(** An ingestion at 12:03 into the three readings, of which one is at
    12:00. *)
Lemma post_conflict_unchanged_witness :
  post Temperature (at_ 0 0) (reading_json (at_ 12 3) 11%float) three_readings
    = (three_readings, Err (Conflict 3)) /\
  three_readings = three_readings /\
  exists when existing,
    normalized_when Temperature (at_ 0 0) (reading_json (at_ 12 3) 11%float)
      = Ok when /\
    In existing (readings_of Temperature (store three_readings)) /\
    when_recorded (cols existing) = when /\
    rowid existing = 3.
Proof.
  assert (H : post Temperature (at_ 0 0) (reading_json (at_ 12 3) 11%float)
                three_readings = (three_readings, Err (Conflict 3)))
    by (vm_compute; reflexivity).
  split; [exact H |].
  exact (post_conflict_unchanged Temperature (at_ 0 0)
           (reading_json (at_ 12 3) 11%float) three_readings three_readings 3 H).
Defined.


(** * Further properties of the code *)

(** ** The order of timestamps *)

Lemma dt_leb_lex (a b : datetime) :
  dt_leb a b = true <->
  ordinal a < ordinal b \/
  (ordinal a = ordinal b /\
   (hour a < hour b \/
    (hour a = hour b /\
     (minute a < minute b \/
      (minute a = minute b /\
       (second a < second b \/
        (second a = second b /\ microsecond a <= microsecond b))))))).
Proof.
  unfold dt_leb, dt_compare.
  repeat match goal with
         | |- context [?x ?= ?y] => destruct (Z.compare_spec x y)
         end;
    split; intros; try lia; try discriminate; reflexivity.
Qed.

Lemma dt_leb_total (a b : datetime) : dt_leb a b = true \/ dt_leb b a = true.
Proof. rewrite !dt_leb_lex. lia. Qed.

Lemma dt_leb_trans (a b c : datetime) :
  dt_leb a b = true -> dt_leb b c = true -> dt_leb a c = true.
Proof. rewrite !dt_leb_lex. lia. Qed.

Lemma dt_leb_antisym (a b : datetime) :
  dt_leb a b = true -> dt_leb b a = true -> a = b.
Proof.
  rewrite !dt_leb_lex. intros H1 H2.
  destruct a, b; simpl in *. f_equal; lia.
Qed.

Lemma dt_ltb_leb (a b : datetime) : dt_ltb a b = negb (dt_leb b a).
Proof.
  unfold dt_ltb, dt_leb. rewrite (dt_compare_antisym b a).
  destruct (dt_compare a b); reflexivity.
Qed.

(** ** The sort of [ORDER BY] *)

Section OrderBy.
Context {D T : Type} (before : T -> T -> bool) (field : D -> T).

Lemma insert_by_perm (x : row D) (l : list (row D)) :
  Permutation (insert_by before field x l) (x :: l).
Proof.
  induction l as [| y l IH]; simpl; [reflexivity |].
  destruct (before _ _); [reflexivity |].
  rewrite IH. apply perm_swap.
Qed.

Lemma order_by_perm (l : list (row D)) :
  Permutation (order_by before field l) l.
Proof.
  induction l as [| x l IH]; simpl; [reflexivity |].
  rewrite insert_by_perm. now constructor.
Qed.

Hypothesis before_total : forall a b, before a b = true \/ before b a = true.
Hypothesis before_trans :
  forall a b c, before a b = true -> before b c = true -> before a c = true.

Lemma insert_by_sorted (x : row D) (l : list (row D)) :
  StronglySorted (in_front before field) l ->
  StronglySorted (in_front before field) (insert_by before field x l).
Proof.
  induction 1 as [| y l Hs IH Hall]; simpl.
  - repeat constructor.
  - destruct (before (field (cols x)) (field (cols y))) eqn:E.
    + constructor; [now constructor |].
      constructor; [exact E |].
      rewrite Forall_forall in *. intros z Hz.
      apply (before_trans _ _ _ E). now apply Hall.
    + constructor; [exact IH |].
      rewrite Forall_forall in *. intros z Hz.
      apply (Permutation_in _ (insert_by_perm x l)) in Hz.
      destruct Hz as [<- | Hz]; [| now apply Hall].
      unfold in_front.
      destruct (before_total (field (cols x)) (field (cols y)));
        [congruence | assumption].
Qed.

Lemma order_by_sorted (l : list (row D)) :
  StronglySorted (in_front before field) (order_by before field l).
Proof.
  induction l as [| x l IH]; simpl; [constructor |].
  now apply insert_by_sorted.
Qed.

(** The first row of the sort may stand in front of every row. *)
Lemma order_by_head (l : list (row D)) (x : row D) :
  hd_error (order_by before field l) = Some x ->
  In x l /\ forall y, In y l -> in_front before field x y.
Proof.
  intros Hhd. pose proof (order_by_sorted l) as Hs.
  pose proof (order_by_perm l) as Hp.
  destruct (order_by before field l) as [| x' rest]; [discriminate |].
  injection Hhd as ->. split.
  - apply (Permutation_in _ Hp). now left.
  - intros y Hy. apply (Permutation_in _ (Permutation_sym Hp)) in Hy.
    inversion Hs as [| ? ? _ Hall]; subst.
    destruct Hy as [<- | Hy].
    + destruct (before_total (field (cols x)) (field (cols x))); assumption.
    + rewrite Forall_forall in Hall. now apply Hall.
Qed.

End OrderBy.

Lemma order_by_nil {D T} (before : T -> T -> bool) (field : D -> T)
    (l : list (row D)) :
  order_by before field l = [] <-> l = [].
Proof.
  split; [| intros ->; reflexivity].
  intros E. pose proof (order_by_perm before field l) as P. rewrite E in P.
  now apply Permutation_nil in P.
Qed.

Lemma when_desc_total (a b : datetime) :
  when_desc a b = true \/ when_desc b a = true.
Proof. unfold when_desc. apply dt_leb_total. Qed.

Lemma when_desc_trans (a b c : datetime) :
  when_desc a b = true -> when_desc b c = true -> when_desc a c = true.
Proof. unfold when_desc. intros H1 H2. exact (dt_leb_trans _ _ _ H2 H1). Qed.

Lemma when_asc_total (a b : datetime) :
  when_asc a b = true \/ when_asc b a = true.
Proof. unfold when_asc. apply dt_leb_total. Qed.

Lemma when_asc_trans (a b c : datetime) :
  when_asc a b = true -> when_asc b c = true -> when_asc a c = true.
Proof. unfold when_asc. apply dt_leb_trans. Qed.

Lemma day_desc_total (a b : Z) : day_desc a b = true \/ day_desc b a = true.
Proof. unfold day_desc. rewrite !Z.leb_le. lia. Qed.

Lemma day_desc_trans (a b c : Z) :
  day_desc a b = true -> day_desc b c = true -> day_desc a c = true.
Proof. unfold day_desc. rewrite !Z.leb_le. lia. Qed.

Lemma day_asc_total (a b : Z) : day_asc a b = true \/ day_asc b a = true.
Proof. unfold day_asc. rewrite !Z.leb_le. lia. Qed.

Lemma day_asc_trans (a b c : Z) :
  day_asc a b = true -> day_asc b c = true -> day_asc a c = true.
Proof. unfold day_asc. rewrite !Z.leb_le. lia. Qed.

Section MoreFacts.
Context {V : Type} {num : Num V}.

(** ** What the requests keep of the store *)

Lemma normalise_when_minute (when : datetime) (r : Z) (result : datetime) :
  normalise_when when r = Ok result ->
  second result = 0 /\ microsecond result = 0.
Proof.
  unfold normalise_when. destruct (r =? 0); [discriminate |].
  intros E. injection E as <-. split; reflexivity.
Qed.

Lemma rowid_order_inj {D} (rows : list (row D)) (x y : row D) :
  rowid_order rows -> In x rows -> In y rows -> rowid x = rowid y -> x = y.
Proof.
  unfold rowid_order. induction rows as [| z rows IH]; simpl; [tauto |].
  intros Hs Hx Hy E. inversion Hs as [| ? ? Hs' Hall]; subst.
  rewrite Forall_forall in Hall.
  assert (Hlt : forall r, In r rows -> rowid z < rowid r)
    by (intros r Hr; apply Hall; now apply in_map).
  destruct Hx as [-> | Hx], Hy as [-> | Hy].
  - reflexivity.
  - specialize (Hlt _ Hy). lia.
  - specialize (Hlt _ Hx). lia.
  - now apply IH.
Qed.

Lemma NoDup_map_inj {A B} (f : A -> B) (l : list A) (x y : A) :
  NoDup (map f l) -> In x l -> In y l -> f x = f y -> x = y.
Proof.
  induction l as [| z l IH]; simpl; [tauto |].
  intros Hnd Hx Hy E. inversion Hnd as [| ? ? Hnot Hnd']; subst.
  destruct Hx as [-> | Hx], Hy as [-> | Hy].
  - reflexivity.
  - exfalso. apply Hnot. rewrite E. now apply in_map.
  - exfalso. apply Hnot. rewrite <- E. now apply in_map.
  - now apply IH.
Qed.

Lemma rollup_current_with_dailies q q' l (t : tables V) (r : row (daily V)) :
  rollup_current q (with_dailies q' l t) r <-> rollup_current q t r.
Proof.
  unfold rollup_current. now rewrite day_readings_with_dailies.
Qed.

(** A recomputation of a day that has readings makes every row current when
    the rows of the other days are. *)
Lemma update_daily_restores q (w : datetime) (c : conn V) :
  day_readings q w (store c) <> [] ->
  NoDup (map (fun r => day (cols r)) (dailies_of q (store c))) ->
  (forall q' r, In r (dailies_of q' (store c)) ->
     (q' = q /\ day (cols r) = date w) \/ rollup_current q' (store c) r) ->
  rollups_current (store (fst (update_daily q w c))).
Proof.
  intros Hne Hnd Hcur. rewrite update_daily_unfold.
  destruct (order_by_desc (day_readings q w (store c)))
    as [| hi rest] eqn:Es.
  { apply (proj1 (order_by_desc_nil _)) in Es. contradiction. }
  cbn [fst store]. intros q' r Hr.
  apply rollup_current_with_dailies.
  destruct (quantity_eq_dec q' q) as [-> | Hq].
  2: { rewrite dailies_with_dailies_other in Hr by exact Hq.
       destruct (Hcur q' r Hr) as [[Heq _] | H]; [contradiction | exact H]. }
  rewrite dailies_with_dailies in Hr.
  set (data := daily_data w hi (hi :: rest)) in *.
  assert (Hdata : forall id, rollup_current q (store c) (mkrow id data)).
  { intros id. exists hi, rest. split; [| reflexivity].
    cbn [cols]. unfold data at 1. cbn [daily_data day].
    rewrite day_readings_midnight. exact Es. }
  unfold upsert in Hr.
  destruct (hd_error (filter (fun r => day (cols r) =? date w)
                             (dailies_of q (store c)))) as [e |] eqn:He.
  - apply in_map_iff in Hr. destruct Hr as (x & Hx & Hin).
    destruct (rowid x =? rowid e) eqn:Eid.
    + subst r. apply Hdata.
    + subst r. destruct (Hcur q x Hin) as [[_ Hd] | H]; [| exact H].
      exfalso. apply hd_error_filter_some in He. destruct He as [Hine Hde].
      apply Z.eqb_eq in Hde.
      assert (x = e).
      { apply (NoDup_map_inj (fun r => day (cols r)) _ x e Hnd Hin Hine).
        congruence. }
      subst x. rewrite Z.eqb_refl in Eid. discriminate.
  - apply in_app_or in Hr. destruct Hr as [Hin | [<- | []]]; [| apply Hdata].
    destruct (Hcur q r Hin) as [[_ Hd] | H]; [| exact H].
    exfalso. destruct (upsert_missing (date w) data _ He) as [_ Hnot].
    apply Hnot. rewrite <- Hd.
    exact (in_map (fun r => day (cols r)) _ _ Hin).
Qed.

Lemma update_daily_current q (w : datetime) (c : conn V) :
  NoDup (map (fun r => day (cols r)) (dailies_of q (store c))) ->
  rollups_current (store c) ->
  rollups_current (store (fst (update_daily q w c))).
Proof.
  intros Hnd Hcur.
  destruct (update_daily_commits q w c) as [[_ ->] | [Hne _]]; [exact Hcur |].
  apply update_daily_restores; auto.
Qed.

(** A reading of another day or another quantity is not among the readings
    of a day. *)
Lemma in_day_other_date (d : Z) (x : row (reading V)) :
  valid_datetime (when_recorded (cols x)) ->
  date (when_recorded (cols x)) <> d ->
  in_day (replace_midnight (mkdatetime d 0 0 0 0))
         (add_days (replace_midnight (mkdatetime d 0 0 0 0)) 1) x = false.
Proof.
  intros Hv Hd. unfold in_day, replace_midnight, add_days; simpl.
  destruct (dt_leb _ _ && dt_ltb _ _) eqn:E; [| reflexivity].
  apply (in_day_date d _ Hv) in E. contradiction.
Qed.

Lemma in_day_own_date (x : row (reading V)) :
  valid_datetime (when_recorded (cols x)) ->
  in_day (replace_midnight (when_recorded (cols x)))
         (add_days (replace_midnight (when_recorded (cols x))) 1) x = true.
Proof.
  intros Hv. unfold in_day.
  now apply (in_day_date (ordinal (when_recorded (cols x))) _ Hv).
Qed.

(** The state between the two commits of an ingestion: the rows of the days
    other than that of the new reading are current. *)
Lemma insert_reading_current q (x : row (reading V)) (t : tables V) :
  valid_datetime (when_recorded (cols x)) ->
  rollups_current t ->
  forall q' r,
    In r (dailies_of q' (with_readings q (readings_of q t ++ [x]) t)) ->
    (q' = q /\ day (cols r) = date (when_recorded (cols x))) \/
    rollup_current q' (with_readings q (readings_of q t ++ [x]) t) r.
Proof.
  intros Hv Hcur q' r Hr. rewrite dailies_with_readings in Hr.
  destruct (quantity_eq_dec q' q) as [-> | Hq].
  - destruct (Z.eq_dec (day (cols r)) (date (when_recorded (cols x))))
      as [Hd | Hd]; [left; auto | right].
    destruct (Hcur q r Hr) as (hi & rest & Hs & Hc).
    exists hi, rest. split; [| exact Hc].
    rewrite <- Hs. f_equal. unfold day_readings.
    rewrite readings_with_readings, filter_app. simpl.
    rewrite in_day_other_date by auto. apply app_nil_r.
  - right. destruct (Hcur q' r Hr) as (hi & rest & Hs & Hc).
    exists hi, rest. split; [| exact Hc].
    rewrite <- Hs. f_equal. unfold day_readings.
    now rewrite readings_with_readings_other.
Qed.

Lemma filter_map_fixed {A} (p : A -> bool) (g : A -> A) (l : list A) :
  (forall x, In x l -> p (g x) = p x) ->
  (forall x, In x l -> p x = true -> g x = x) ->
  filter p (map g l) = filter p l.
Proof.
  induction l as [| x l IH]; simpl; intros Hp Hg; [reflexivity |].
  rewrite Hp by now left.
  destruct (p x) eqn:E.
  - rewrite Hg by auto. f_equal. apply IH; auto.
  - apply IH; auto.
Qed.

(** The state between the two commits of a correction. *)
Lemma update_reading_current q (id : Z) (json : request_json V)
    (existing : row (reading V)) (t : tables V) :
  rowid_order (readings_of q t) ->
  readings_normalised t ->
  In existing (readings_of q t) -> rowid existing = id ->
  rollups_current t ->
  let t' :=
    with_readings q
      (map (fun r => if rowid r =? id
                     then mkrow (rowid r) (corrected json (cols r)) else r)
           (readings_of q t)) t in
  forall q' r,
    In r (dailies_of q' t') ->
    (q' = q /\ day (cols r) = date (when_recorded (cols existing))) \/
    rollup_current q' t' r.
Proof.
  intros Hord Hnorm Hin Hid Hcur t' q' r Hr. unfold t' in *.
  rewrite dailies_with_readings in Hr.
  destruct (quantity_eq_dec q' q) as [-> | Hq].
  - destruct (Z.eq_dec (day (cols r)) (date (when_recorded (cols existing))))
      as [Hd | Hd]; [left; auto | right].
    destruct (Hcur q r Hr) as (hi & rest & Hs & Hc).
    exists hi, rest. split; [| exact Hc].
    rewrite <- Hs. f_equal. unfold day_readings.
    rewrite readings_with_readings. apply filter_map_fixed.
    + intros x _. destruct (rowid x =? id); reflexivity.
    + intros x Hx Hday. destruct (rowid x =? id) eqn:E; [| reflexivity].
      apply Z.eqb_eq in E.
      assert (x = existing)
        by (apply (rowid_order_inj _ x existing Hord Hx Hin); congruence).
      subst x. exfalso.
      rewrite in_day_other_date in Hday; [discriminate | | congruence].
      apply (Hnorm q existing Hin).
  - right. destruct (Hcur q' r Hr) as (hi & rest & Hs & Hc).
    exists hi, rest. split; [| exact Hc].
    rewrite <- Hs. f_equal. unfold day_readings.
    now rewrite readings_with_readings_other.
Qed.

Lemma update_daily_normalised q (w : datetime) (c : conn V) :
  readings_normalised (store c) ->
  readings_normalised (store (fst (update_daily q w c))).
Proof.
  intros H q' r Hr. rewrite update_daily_readings in Hr.
  exact (H q' r Hr).
Qed.

Lemma update_daily_unique q (w : datetime) (c : conn V) :
  readings_unique (store c) ->
  readings_unique (store (fst (update_daily q w c))).
Proof. intros H q'. rewrite update_daily_readings. apply H. Qed.

Lemma select_when_none_not_in q (when : datetime) (t : tables V) :
  select_when q when t = None ->
  ~ In when (map (fun r => when_recorded (cols r)) (readings_of q t)).
Proof.
  unfold select_when. intros Hnone Hin.
  apply hd_error_filter_none in Hnone.
  apply in_map_iff in Hin. destruct Hin as (r & Hw & Hr).
  assert (Hf : In r (filter (fun r => dt_eqb (when_recorded (cols r)) when)
                            (readings_of q t))).
  { apply filter_In. split; [exact Hr | now apply dt_eqb_eq]. }
  rewrite Hnone in Hf. contradiction.
Qed.

Lemma handle_store_invariant (r : request V) (c : conn V) :
  store_invariant (store c) -> store_invariant (store (handle r c)).
Proof.
  intros (Hord & Hinv & Hnorm & Huniq & Hcur).
  split; [now apply handle_in_order |].
  split; [now apply handle_invariant |].
  destruct r as [q utcnow json | q id json | q w]; simpl.
  - rewrite post_unfold.
    destruct (document_schema_load q json) as [doc |]; [| auto].
    destruct (normalise_when _ _) as [when |] eqn:Hn; [| auto].
    destruct (select_when q when (store c)) eqn:Hsel; [auto |].
    cbn [fst].
    set (new := mkrow (next_rowid (readings_of q (store c)))
                  (mkreading when (l_value doc) (l_sensor_temperature doc)
                     (l_resolution doc))).
    set (mid := with_readings q (readings_of q (store c) ++ [new]) (store c)).
    assert (Hv : valid_datetime (when_recorded (cols new)))
      by exact (normalise_when_valid _ _ _ Hn).
    assert (Hnorm' : readings_normalised mid).
    { intros q' x Hx. unfold mid in Hx.
      destruct (quantity_eq_dec q' q) as [-> | Hq].
      - rewrite readings_with_readings in Hx. apply in_app_or in Hx.
        destruct Hx as [Hx | [<- | []]]; [exact (Hnorm _ _ Hx) |].
        split; [exact Hv | exact (normalise_when_minute _ _ _ Hn)].
      - rewrite readings_with_readings_other in Hx by exact Hq.
        exact (Hnorm _ _ Hx). }
    assert (Huniq' : readings_unique mid).
    { intros q'. unfold mid.
      destruct (quantity_eq_dec q' q) as [-> | Hq].
      - rewrite readings_with_readings, map_app. simpl.
        apply NoDup_snoc; [apply Huniq |].
        now apply select_when_none_not_in.
      - rewrite readings_with_readings_other by exact Hq. apply Huniq. }
    split; [now apply update_daily_normalised |].
    split; [now apply update_daily_unique |].
    apply update_daily_restores.
    + cbn [store]. unfold day_readings, mid.
      rewrite readings_with_readings. intros E.
      assert (Hx : In new
                     (filter
                        (in_day (replace_midnight when)
                                (add_days (replace_midnight when) 1))
                        (readings_of q (store c) ++ [new]))).
      { apply filter_In. split; [apply in_or_app; right; now left |].
        exact (in_day_own_date new Hv). }
      rewrite E in Hx. contradiction.
    + cbn [store]. unfold mid. rewrite dailies_with_readings.
      apply (Hinv q).
    + cbn [store]. apply (insert_reading_current q new (store c) Hv Hcur).
  - rewrite put_unfold.
    destruct (put_schema_load q json) as [data |] eqn:Hload; [| auto].
    destruct (select_rowid q id (store c)) as [existing |] eqn:Hsel;
      [| auto].
    destruct data as [| set data]; [auto |].
    rewrite (put_mid_corrected q id json _ _ Hload). cbn [fst].
    set (mid := with_readings q _ (store c)).
    unfold select_rowid in Hsel. apply hd_error_filter_some in Hsel.
    destruct Hsel as [Hin Hid]. apply Z.eqb_eq in Hid.
    assert (Hnorm' : readings_normalised mid).
    { intros q' x Hx. unfold mid in Hx.
      destruct (quantity_eq_dec q' q) as [-> | Hq].
      - rewrite readings_with_readings in Hx. apply in_map_iff in Hx.
        destruct Hx as (y & <- & Hy).
        destruct (rowid y =? id); [| exact (Hnorm _ _ Hy)].
        exact (Hnorm q y Hy).
      - rewrite readings_with_readings_other in Hx by exact Hq.
        exact (Hnorm _ _ Hx). }
    assert (Huniq' : readings_unique mid).
    { intros q'. unfold mid.
      destruct (quantity_eq_dec q' q) as [-> | Hq].
      - rewrite readings_with_readings, map_map.
        rewrite (map_ext _ (fun r => when_recorded (cols r)));
          [apply Huniq |].
        intros y. destruct (rowid y =? id); reflexivity.
      - rewrite readings_with_readings_other by exact Hq. apply Huniq. }
    split; [now apply update_daily_normalised |].
    split; [now apply update_daily_unique |].
    apply update_daily_restores.
    + cbn [store]. unfold day_readings, mid.
      rewrite readings_with_readings.
      intros E.
      assert (Hx : In (mkrow (rowid existing) (corrected json (cols existing)))
                      (filter
                         (in_day
                            (replace_midnight (when_recorded (cols existing)))
                            (add_days
                               (replace_midnight
                                  (when_recorded (cols existing))) 1))
                         (map (fun x => if rowid x =? id
                                 then mkrow (rowid x) (corrected json (cols x))
                                 else x) (readings_of q (store c))))).
      { apply filter_In. split.
        - apply in_map_iff. exists existing.
          rewrite (proj2 (Z.eqb_eq _ _) Hid). auto.
        - apply (in_day_own_date
                   (mkrow (rowid existing) (corrected json (cols existing)))).
          exact (proj1 (Hnorm q existing Hin)). }
      rewrite E in Hx. contradiction.
    + cbn [store]. unfold mid. rewrite dailies_with_readings.
      apply (Hinv q).
    + cbn [store].
      exact (update_reading_current q id json existing (store c)
               (proj1 (Hord q)) Hnorm Hin Hid Hcur).
  - split; [now apply update_daily_normalised |].
    split; [now apply update_daily_unique |].
    apply update_daily_current; [apply (Hinv q) | exact Hcur].
Qed.

Lemma serve_store_invariant (requests : list (request V)) (c : conn V) :
  store_invariant (store c) -> store_invariant (store (serve requests c)).
Proof.
  revert c. induction requests as [| r requests IH]; intros c Hinv;
    [exact Hinv |].
  simpl. apply IH. now apply handle_store_invariant.
Qed.

Lemma empty_store_invariant : store_invariant (store (@empty_conn V)).
Proof.
  split; [apply empty_in_order |]. split; [apply empty_invariant |].
  split; [intros q r Hr; destruct q; destruct Hr |].
  split; [intros q; destruct q; constructor |].
  intros q r Hr; destruct q; destruct Hr.
Qed.

End MoreFacts.

Section Extras.
Context {V : Type} {num : Num V}.

(** ** Sequential rowids *)

Lemma max_seq (n s : nat) :
  fold_right Z.max 0 (map Z.of_nat (seq s n))
  = match n with O => 0 | S _ => Z.of_nat (s + n - 1) end.
Proof.
  revert s. induction n as [| n IH]; intros s; [reflexivity |].
  simpl seq. simpl map. simpl fold_right. rewrite IH.
  destruct n; lia.
Qed.

Lemma next_rowid_sequential {D} (rows : list (row D)) :
  rowids_sequential rows -> next_rowid rows = Z.of_nat (length rows) + 1.
Proof.
  unfold rowids_sequential, next_rowid. intros ->. rewrite max_seq.
  destruct (length rows); lia.
Qed.

Lemma rowids_sequential_snoc {D} (rows : list (row D)) (data : D) :
  rowids_sequential rows ->
  rowids_sequential (rows ++ [mkrow (next_rowid rows) data]).
Proof.
  intros H. rewrite (next_rowid_sequential rows H).
  unfold rowids_sequential in *.
  rewrite map_app, length_app, H. simpl length.
  rewrite Nat.add_1_r, seq_S, map_app. simpl. do 2 f_equal. lia.
Qed.

Lemma rowids_sequential_map {D} (f : row D -> row D) (rows : list (row D)) :
  (forall r, rowid (f r) = rowid r) ->
  rowids_sequential rows -> rowids_sequential (map f rows).
Proof.
  unfold rowids_sequential. intros Hf H.
  rewrite map_map, length_map, (map_ext _ rowid Hf). exact H.
Qed.

Lemma rowids_sequential_upsert (d : Z) (data : daily V)
    (rows : list (row (daily V))) :
  rowids_sequential rows -> rowids_sequential (upsert d data rows).
Proof.
  intros H. unfold upsert. destruct (hd_error _) as [e |].
  - apply rowids_sequential_map; [| exact H].
    intros r. destruct (rowid r =? rowid e); reflexivity.
  - now apply rowids_sequential_snoc.
Qed.

Lemma update_daily_sequential q (w : datetime) (c : conn V) :
  tables_sequential (store c) ->
  tables_sequential (store (fst (update_daily q w c))).
Proof.
  intros Hseq. rewrite update_daily_unfold.
  destruct (order_by_desc _); [exact Hseq |].
  cbn [fst store]. intros q'. destruct (Hseq q') as [Hr Hd].
  rewrite readings_with_dailies. split; [exact Hr |].
  destruct (quantity_eq_dec q' q) as [-> | Hne].
  - rewrite dailies_with_dailies. apply rowids_sequential_upsert.
    exact (proj2 (Hseq q)).
  - now rewrite dailies_with_dailies_other.
Qed.

Lemma with_readings_sequential q (l : list (row (reading V)))
    (t : tables V) :
  tables_sequential t -> rowids_sequential l ->
  tables_sequential (with_readings q l t).
Proof.
  intros Hseq Hl q'. destruct (Hseq q') as [Hr Hd].
  rewrite dailies_with_readings. split; [| exact Hd].
  destruct (quantity_eq_dec q' q) as [-> | Hne].
  - now rewrite readings_with_readings.
  - now rewrite readings_with_readings_other.
Qed.

Lemma handle_sequential (r : request V) (c : conn V) :
  tables_sequential (store c) -> tables_sequential (store (handle r c)).
Proof.
  intros Hseq. destruct r as [q utcnow json | q id json | q w]; simpl.
  - rewrite post_unfold.
    destruct (document_schema_load q json); [| exact Hseq].
    destruct (normalise_when _ _) as [when |]; [| exact Hseq].
    destruct (select_when q when (store c)); [exact Hseq |].
    cbn [fst]. apply update_daily_sequential. cbn [store].
    apply with_readings_sequential; [exact Hseq |].
    apply rowids_sequential_snoc. exact (proj1 (Hseq q)).
  - rewrite put_unfold.
    destruct (put_schema_load q json) as [data |]; [| exact Hseq].
    destruct (select_rowid q id (store c)); [| exact Hseq].
    destruct data as [| set data]; [exact Hseq |].
    cbn [fst]. apply update_daily_sequential. cbn [store].
    apply with_readings_sequential; [exact Hseq |].
    apply rowids_sequential_map; [| exact (proj1 (Hseq q))].
    intros x. destruct (rowid x =? id); reflexivity.
  - now apply update_daily_sequential.
Qed.

Lemma serve_sequential (requests : list (request V)) (c : conn V) :
  tables_sequential (store c) -> tables_sequential (store (serve requests c)).
Proof.
  revert c. induction requests as [| r requests IH]; intros c Hseq;
    [exact Hseq |].
  simpl. apply IH. now apply handle_sequential.
Qed.

Lemma empty_sequential : tables_sequential (store (@empty_conn V)).
Proof. intros q. destruct q; split; reflexivity. Qed.

(** ** States reached from the empty database *)

Lemma last_in {A} (l : list A) (d : A) : l <> [] -> In (last l d) l.
Proof.
  induction l as [| a l IH]; [contradiction |]. intros _.
  destruct l as [| b l]; [now left |].
  right. apply IH. discriminate.
Qed.

Lemma filter_unique {A B} (f : A -> B) (p : A -> bool) (e : B) (l : list A) :
  NoDup (map f l) -> (forall x, p x = true -> f x = e) ->
  (length (filter p l) <= 1)%nat.
Proof.
  intros Hnd Hp. induction l as [| x l IH]; simpl; [lia |].
  inversion Hnd as [| ? ? Hnot Hnd']; subst.
  destruct (p x) eqn:E; [| now apply IH].
  assert (Hnil : filter p l = []).
  { destruct (filter p l) as [| y rest] eqn:Ef; [reflexivity |].
    assert (Hy : In y (filter p l)) by (rewrite Ef; now left).
    apply filter_In in Hy. destruct Hy as [Hin Hpy].
    exfalso. apply Hnot. rewrite (Hp x E), <- (Hp y Hpy). now apply in_map. }
  rewrite Hnil. simpl. lia.
Qed.

(** X1.  In every state reached from the empty database by ingestions,
    corrections and recomputations, no two readings of a quantity have the
    same timestamp, and every stored timestamp is a valid time with seconds
    and microseconds zero. *)
Theorem stored_timestamps (requests : list (request V)) (q : quantity) :
  let c := serve requests empty_conn in
  NoDup (map (fun r => when_recorded (cols r)) (readings_of q (store c))) /\
  forall r, In r (readings_of q (store c)) ->
    valid_datetime (when_recorded (cols r)) /\
    second (when_recorded (cols r)) = 0 /\
    microsecond (when_recorded (cols r)) = 0.
Proof.
  intros c.
  destruct (serve_store_invariant requests empty_conn empty_store_invariant)
    as (_ & _ & Hnorm & Huniq & _).
  split; [apply Huniq | intros r Hr; exact (Hnorm q r Hr)].
Qed.

(** X2.  In every state reached from the empty database, every row of a
    daily table holds the statistics of the readings its day has now: high,
    low, median and mean are those of the day's readings in descending order
    of value, and the three readings they are taken from are stored readings
    of that day. *)
Theorem rollups_follow_readings (requests : list (request V))
    (q : quantity) :
  let c := serve requests empty_conn in
  forall r, In r (dailies_of q (store c)) ->
    exists sorted hi lo med,
      sorted
      = order_by_desc
          (day_readings q (mkdatetime (day (cols r)) 0 0 0 0) (store c)) /\
      hd_error sorted = Some hi /\ last sorted hi = lo /\
      nth_error sorted (length sorted / 2) = Some med /\
      cols r
      = mkdaily (day (cols r)) (value (cols hi)) (value (cols lo))
          (vdiv (fold_left (fun acc t => vadd acc (value (cols t)))
                           sorted vzero)
                (Z.of_nat (length sorted)))
          (value (cols med))
          (when_recorded (cols hi)) (when_recorded (cols lo))
          (when_recorded (cols med)) /\
      (forall x, x = hi \/ x = lo \/ x = med ->
         In x (readings_of q (store c)) /\
         date (when_recorded (cols x)) = day (cols r)).
Proof.
  intros c r Hr.
  destruct (serve_store_invariant requests empty_conn empty_store_invariant)
    as (_ & _ & Hnorm & _ & Hcur).
  fold c in Hnorm, Hcur.
  destruct (Hcur q r Hr) as (hi & rest & Hs & Hc).
  exists (hi :: rest), hi, (last (hi :: rest) hi),
    (nth (length (hi :: rest) / 2) (hi :: rest) hi).
  split; [symmetry; exact Hs |]. split; [reflexivity |].
  split; [reflexivity |].
  split; [apply median_index; discriminate |].
  split; [exact Hc |].
  assert (Hmem : forall x, In x (hi :: rest) ->
            In x (readings_of q (store c)) /\
            date (when_recorded (cols x)) = day (cols r)).
  { intros x Hx. rewrite <- Hs in Hx.
    apply (Permutation_in _ (order_by_desc_perm _)) in Hx.
    unfold day_readings in Hx. apply filter_In in Hx.
    destruct Hx as [Hin Hday]. split; [exact Hin |].
    unfold in_day, replace_midnight, add_days in Hday; simpl in Hday.
    apply (in_day_date (day (cols r)) _ (proj1 (Hnorm q x Hin))).
    exact Hday. }
  intros x [-> | [-> | ->]]; apply Hmem.
  - now left.
  - apply last_in. discriminate.
  - apply nth_In. apply Nat.div_lt; simpl; lia.
Qed.

(** X3.  In every state reached from the empty database the rowids of a
    table are 1, 2, 3, ... in the order of the table, for the readings and
    for the daily rows, and a successful ingestion returns the number of
    readings the quantity then has. *)
Theorem rowids_count_up (requests : list (request V)) (q : quantity) :
  let c := serve requests empty_conn in
  rowids_sequential (readings_of q (store c)) /\
  rowids_sequential (dailies_of q (store c)) /\
  forall utcnow json c' id,
    post q utcnow json c = (c', Ok id) ->
    id = Z.of_nat (length (readings_of q (store c'))) /\
    length (readings_of q (store c'))
    = S (length (readings_of q (store c))).
Proof.
  intros c.
  pose proof (serve_sequential requests empty_conn empty_sequential) as Hseq.
  fold c in Hseq. destruct (Hseq q) as [Hr Hd].
  split; [exact Hr |]. split; [exact Hd |].
  intros utcnow json c' id. rewrite post_unfold.
  destruct (document_schema_load q json); [| discriminate].
  destruct (normalise_when _ _) as [when |]; [| discriminate].
  destruct (select_when q when (store c)); [discriminate |].
  intros E. injection E as <- <-.
  rewrite update_daily_readings. cbn [store].
  rewrite readings_with_readings, length_app. simpl length.
  rewrite (next_rowid_sequential _ Hr). split; lia.
Qed.

(** X4.  In every state reached from the empty database an interval query
    with [exactly] returns at most one row, of the readings and of the daily
    rows. *)
Theorem exactly_at_most_one (requests : list (request V)) (q : quantity) :
  let c := serve requests empty_conn in
  (forall e b a rows,
     snd (collection_get q (mkcriteria (Some e) b a) c) = Ok rows ->
     (length rows <= 1)%nat) /\
  (forall e b a rows,
     snd (daily_collection_get q (mkcriteria (Some e) b a) c) = Ok rows ->
     (length rows <= 1)%nat).
Proof.
  intros c.
  destruct (serve_store_invariant requests empty_conn empty_store_invariant)
    as (_ & Hinv & _ & Huniq & _).
  fold c in Hinv, Huniq. split.
  - intros e b a rows. rewrite collection_get_filter. cbn [snd].
    intros E. injection E as <-.
    apply (filter_unique (fun r => when_recorded (cols r)) _ e);
      [apply Huniq |].
    intros x. unfold selected; simpl.
    destruct (dt_compare _ e) eqn:Ec; try discriminate.
    intros _. now apply dt_compare_eq.
  - intros e b a rows. rewrite daily_collection_get_filter. cbn [snd].
    intros E. injection E as <-.
    apply (filter_unique (fun r => day (cols r)) _ e);
      [apply (Hinv q) |].
    intros x. unfold selected; simpl.
    destruct (_ ?= e) eqn:Ec; try discriminate.
    intros _. now apply Z.compare_eq_iff.
Qed.

(** ** Ingestion, documents and latest rows *)







Lemma select_latest_max (q : quantity) (t : tables V) :
  readings_of q t <> [] ->
  exists r, select_latest q t = Some r /\ In r (readings_of q t) /\
            forall x, In x (readings_of q t) ->
              dt_leb (when_recorded (cols x)) (when_recorded (cols r)) = true.
Proof.
  intros Hne. unfold select_latest.
  destruct (order_by when_desc when_recorded (readings_of q t))
    as [| r rest] eqn:E.
  { apply order_by_nil in E. contradiction. }
  exists r. split; [reflexivity |].
  assert (Hhd : hd_error (order_by when_desc when_recorded (readings_of q t))
                = Some r) by (rewrite E; reflexivity).
  destruct (order_by_head when_desc when_recorded
              when_desc_total when_desc_trans _ _ Hhd) as [Hin Hmax].
  split; [exact Hin |]. intros x Hx. exact (Hmax x Hx).
Qed.

(** X9.  The latest reading of a quantity is refused as not found exactly
    when the quantity has no reading; otherwise it is a stored reading and
    no stored reading has a later timestamp.  The same holds for the latest
    daily row and the days.  The connection stays as it was. *)
Theorem latest_get_spec (q : quantity) (c : conn V) :
  (readings_of q (store c) = [] -> latest_get q c = (c, Err NotFound)) /\
  (readings_of q (store c) <> [] ->
   exists r, latest_get q c = (c, Ok r) /\
             In r (readings_of q (store c)) /\
             forall x, In x (readings_of q (store c)) ->
               dt_leb (when_recorded (cols x)) (when_recorded (cols r))
               = true) /\
  (dailies_of q (store c) = [] -> daily_latest_get q c = (c, Err NotFound)) /\
  (dailies_of q (store c) <> [] ->
   exists r, daily_latest_get q c = (c, Ok r) /\
             In r (dailies_of q (store c)) /\
             forall x, In x (dailies_of q (store c)) ->
               day (cols x) <= day (cols r)).
Proof.
  unfold latest_get, daily_latest_get, bind, query_database,
    select_latest, select_daily_latest.
  split; [| split; [| split]].
  - intros ->. reflexivity.
  - intros Hne.
    destruct (select_latest_max q (store c) Hne) as (r & Hsel & Hin & Hmax).
    unfold select_latest in Hsel. rewrite Hsel.
    exists r. auto.
  - intros ->. reflexivity.
  - intros Hne.
    destruct (order_by day_desc day (dailies_of q (store c)))
      as [| r rest] eqn:E.
    { apply order_by_nil in E. contradiction. }
    exists r. split; [reflexivity |].
    assert (Hhd : hd_error (order_by day_desc day (dailies_of q (store c)))
                  = Some r) by (rewrite E; reflexivity).
    destruct (order_by_head day_desc day day_desc_total day_desc_trans
                _ _ Hhd) as [Hin Hmax].
    split; [exact Hin |]. intros x Hx.
    specialize (Hmax x Hx). unfold in_front, day_desc in Hmax.
    now apply Z.leb_le.
Qed.

(** X10.  After a successful ingestion whose normalised timestamp is later
    than every timestamp the quantity had, the latest reading is the one
    that was ingested. *)
Theorem post_then_latest (q : quantity) (utcnow : datetime)
    (json : request_json V) (c c' : conn V) (id : Z) (when : datetime) :
  post q utcnow json c = (c', Ok id) ->
  normalized_when q utcnow json = Ok when ->
  (forall x, In x (readings_of q (store c)) ->
             dt_ltb (when_recorded (cols x)) when = true) ->
  exists r, latest_get q c' = (c', Ok r) /\
            rowid r = id /\ when_recorded (cols r) = when.
Proof.
  intros Hpost Hwhen Hlater.
  rewrite post_unfold in Hpost. unfold normalized_when in Hwhen.
  destruct (document_schema_load q json) as [doc |]; [| discriminate].
  simpl rbind in Hwhen. rewrite Hwhen in Hpost.
  destruct (select_when q when (store c)); [discriminate |].
  injection Hpost as <- <-.
  set (new := mkrow (next_rowid (readings_of q (store c)))
                (mkreading when (l_value doc) (l_sensor_temperature doc)
                   (l_resolution doc))).
  set (c' := fst (update_daily q when _)).
  assert (Hrows : readings_of q (store c')
                  = readings_of q (store c) ++ [new]).
  { unfold c'. rewrite update_daily_readings. cbn [store].
    apply readings_with_readings. }
  assert (Hne : readings_of q (store c') <> []).
  { rewrite Hrows. intros E. apply app_eq_nil in E.
    destruct E as [_ E]. discriminate. }
  destruct (select_latest_max q (store c') Hne) as (r & Hsel & Hin & Hmax).
  exists r. split.
  { unfold latest_get, bind, query_database. rewrite Hsel. reflexivity. }
  rewrite Hrows in Hin, Hmax.
  apply in_app_or in Hin. destruct Hin as [Hin | [<- | []]]; [| auto].
  exfalso. specialize (Hlater r Hin).
  assert (Hn : In new (readings_of q (store c) ++ [new]))
    by (apply in_or_app; right; now left).
  specialize (Hmax new Hn). cbn [new cols when_recorded] in Hmax.
  rewrite dt_ltb_leb, Hmax in Hlater. discriminate.
Qed.

(** ** The status page *)

(** The float computation of [math.floor(minute / 15)] and the quotient of
    the integers agree for every minute. *)
Lemma py_floor_div_float_table :
  forallb (fun m =>
             match py_floor_div_float m 15 with
             | Some k => k =? m / 15
             | None => false
             end) (map Z.of_nat (seq 0 60)) = true.
Proof. vm_compute. reflexivity. Qed.

(** X11.  The time the status page takes as now is the clock moved back to
    the quarter of the hour it is in: same day and hour, seconds and
    microseconds zero, the minute 0, 15, 30 or 45 and at most 14 minutes
    before the clock's; the integer quotient that gives it is what the float
    computation [math.floor(minute / 15)] returns.  A time on a quarter is
    left where it is. *)
Theorem quarter_hour_floor (utcnow : datetime) :
  valid_datetime utcnow ->
  let now := quarter_hour utcnow in
  ordinal now = ordinal utcnow /\ hour now = hour utcnow /\
  second now = 0 /\ microsecond now = 0 /\
  py_floor_div_float (minute utcnow) 15 = Some (minute utcnow / 15) /\
  minute now = 15 * (minute utcnow / 15) /\
  (minute now = 0 \/ minute now = 15 \/ minute now = 30 \/ minute now = 45)
  /\
  minute now <= minute utcnow < minute now + 15 /\
  quarter_hour now = now.
Proof.
  destruct utcnow as [o h m s u]. unfold valid_datetime.
  cbn [ordinal hour minute second microsecond].
  intros (Hh & Hm & Hs & Hu).
  assert (Hfloat : py_floor_div_float m 15 = Some (m / 15)).
  { pose proof py_floor_div_float_table as T.
    rewrite forallb_forall in T.
    assert (Im : In m (map Z.of_nat (seq 0 60))).
    { apply in_map_iff. exists (Z.to_nat m). split; [lia |].
      apply in_seq. lia. }
    specialize (T m Im).
    destruct (py_floor_div_float m 15) as [k |]; [| discriminate].
    apply Z.eqb_eq in T. now subst. }
  cbv zeta. unfold quarter_hour, add_minutes, replace_second0.
  cbn [ordinal hour minute second microsecond].
  replace (h * 60 + m + (m / 15 * 15 - m)) with (h * 60 + m / 15 * 15)
    by lia.
  assert (Eq : m / 15 * 15 / 15 = m / 15) by (apply Z.div_mul; lia).
  assert (E1 : (h * 60 + m / 15 * 15) / 1440 = 0)
    by (apply Z.div_small; Z.div_mod_to_equations; lia).
  assert (E2 : (h * 60 + m / 15 * 15) mod 1440 = h * 60 + m / 15 * 15)
    by (apply Z.mod_small; Z.div_mod_to_equations; lia).
  assert (E3 : (h * 60 + m / 15 * 15) / 60 = h)
    by (Z.div_mod_to_equations; lia).
  assert (E4 : (h * 60 + m / 15 * 15) mod 60 = m / 15 * 15)
    by (Z.div_mod_to_equations; lia).
  rewrite E1, E2, E3, E4.
  replace (h * 60 + m / 15 * 15 + (m / 15 * 15 / 15 * 15 - m / 15 * 15))
    with (h * 60 + m / 15 * 15) by (rewrite Eq; lia).
  rewrite E1, E2, E3, E4.
  split; [lia |]. split; [reflexivity |]. split; [reflexivity |].
  split; [reflexivity |]. split; [exact Hfloat |].
  split; [lia |].
  split; [Z.div_mod_to_equations; lia |].
  split; [Z.div_mod_to_equations; lia |].
  f_equal. lia.
Qed.

Lemma select_latest_none (q : quantity) (t : tables V) :
  select_latest q t = None <-> readings_of q t = [].
Proof.
  unfold select_latest. split.
  - intros E. apply (order_by_nil when_desc when_recorded).
    destruct (order_by _ _ _); [reflexivity | discriminate].
  - intros ->. reflexivity.
Qed.

(** X12.  The status page fails with an [AttributeError] whenever no
    temperature is stored, and it is never rendered when no pressure is.
    It answers 304 exactly when the request has an [If-Modified-Since] time,
    a temperature is stored, and the latest temperature is not later than
    that time or a pressure is stored and the latest pressure is not later
    than it.  When it is rendered it shows the latest temperature and the
    latest pressure, both later than the [If-Modified-Since] time if there
    is one, and its [Last-Modified] is the time of the latest temperature. *)
Theorem current_status_outcome (utcnow : datetime) (today : Z)
    (if_modified_since : option datetime) (t : tables V) :
  (readings_of Temperature t = [] ->
   current_status utcnow today if_modified_since t = AttributeError) /\
  (readings_of Pressure t = [] ->
   forall p, current_status utcnow today if_modified_since t <> Rendered p)
  /\
  (current_status utcnow today if_modified_since t = NotModified <->
   exists conditional temperature,
     if_modified_since = Some conditional /\
     select_latest Temperature t = Some temperature /\
     (dt_leb (when_recorded (cols temperature)) conditional = true \/
      exists pressure,
        select_latest Pressure t = Some pressure /\
        dt_leb (when_recorded (cols pressure)) conditional = true)) /\
  (forall p,
     current_status utcnow today if_modified_since t = Rendered p ->
     select_latest Temperature t = Some (p_temperature p) /\
     select_latest Pressure t = Some (p_pressure p) /\
     last_modified p = when_recorded (cols (p_temperature p)) /\
     forall conditional,
       if_modified_since = Some conditional ->
       dt_ltb conditional (when_recorded (cols (p_temperature p))) = true /\
       dt_ltb conditional (when_recorded (cols (p_pressure p))) = true).
Proof.
  unfold current_status.
  split; [| split; [| split]].
  - intros E. apply select_latest_none in E. rewrite E.
    now destruct if_modified_since.
  - intros E p. apply select_latest_none in E. rewrite E.
    destruct if_modified_since as [cond |],
      (select_latest Temperature t) as [temp |];
      try destruct (dt_ltb cond (when_recorded (cols temp)));
      discriminate.
  - split.
    + destruct if_modified_since as [cond |],
        (select_latest Temperature t) as [temp |],
        (select_latest Pressure t) as [pres |]; try discriminate;
        rewrite ?dt_ltb_leb;
        destruct (dt_leb (when_recorded (cols temp)) cond) eqn:Et;
        cbn [negb]; try discriminate;
        try (intros _; exists cond, temp; now auto).
      destruct (dt_leb (when_recorded (cols pres)) cond) eqn:Ep;
        cbn [negb]; try discriminate.
      intros _. exists cond, temp. split; [reflexivity |].
      split; [reflexivity |]. right. exists pres. auto.
    + intros (cond & temp & -> & -> & H). rewrite !dt_ltb_leb.
      destruct H as [Ht | (pres & -> & Hp)].
      * rewrite Ht. reflexivity.
      * destruct (dt_leb (when_recorded (cols temp)) cond);
          cbn [negb]; rewrite ?dt_ltb_leb, ?Hp; reflexivity.
  - intros p.
    destruct if_modified_since as [cond |],
      (select_latest Temperature t) as [temp |],
      (select_latest Pressure t) as [pres |]; try discriminate;
      try destruct (dt_ltb cond (when_recorded (cols temp))) eqn:Et;
      try destruct (dt_ltb cond (when_recorded (cols pres))) eqn:Ep;
      try discriminate;
      intros E; injection E as <-; cbn;
      (split; [reflexivity |]); (split; [reflexivity |]);
      (split; [reflexivity |]); intros conditional Hc;
      try discriminate; injection Hc as <-; auto.
Qed.

(** X13.  On a rendered status page the rows of the two 24-hour charts are
    the readings at or after the quarter-hour time of the request less one
    day, and those of the two 30-day charts are the daily rows at or after
    the day of the request less 30 days, each in ascending order of its time
    field. *)
Theorem current_status_charts (utcnow : datetime) (today : Z)
    (if_modified_since : option datetime) (t : tables V) (p : page V) :
  current_status utcnow today if_modified_since t = Rendered p ->
  let since := add_days (quarter_hour utcnow) (-1) in
  (StronglySorted (in_front when_asc when_recorded) (temperature_24 p) /\
   Permutation (temperature_24 p)
     (filter (fun r => dt_leb since (when_recorded (cols r)))
             (readings_of Temperature t))) /\
  (StronglySorted (in_front when_asc when_recorded) (pressure_24 p) /\
   Permutation (pressure_24 p)
     (filter (fun r => dt_leb since (when_recorded (cols r)))
             (readings_of Pressure t))) /\
  (StronglySorted (in_front day_asc day) (temperature_daily p) /\
   Permutation (temperature_daily p)
     (filter (fun r => today - 30 <=? day (cols r))
             (dailies_of Temperature t))) /\
  (StronglySorted (in_front day_asc day) (pressure_daily p) /\
   Permutation (pressure_daily p)
     (filter (fun r => today - 30 <=? day (cols r))
             (dailies_of Pressure t))).
Proof.
  unfold current_status. intros E.
  assert (Hp : exists temp pres,
            p = mkpage temp pres
                  (select_since Temperature
                     (add_days (quarter_hour utcnow) (-1)) t)
                  (select_since Pressure
                     (add_days (quarter_hour utcnow) (-1)) t)
                  (select_daily_since Temperature (today - 30) t)
                  (select_daily_since Pressure (today - 30) t)
                  (when_recorded (cols temp))).
  { destruct if_modified_since as [cond |],
      (select_latest Temperature t) as [temp |],
      (select_latest Pressure t) as [pres |]; try discriminate;
      try destruct (dt_ltb cond (when_recorded (cols temp)));
      try destruct (dt_ltb cond (when_recorded (cols pres)));
      try discriminate; injection E as <-; eauto. }
  destruct Hp as (temp & pres & ->). cbn.
  unfold select_since, select_daily_since.
  repeat split;
    try apply order_by_perm;
    try (apply order_by_sorted;
         [apply when_asc_total | apply when_asc_trans]);
    try (apply order_by_sorted;
         [apply day_asc_total | apply day_asc_trans]).
Qed.

(** X14.  In a state reached from the empty database the [Last-Modified]
    of a rendered status page is a time to the second, and a request that
    sends it back as [If-Modified-Since] is answered 304 as long as the
    tables are the same, at whatever time it is made. *)
Theorem last_modified_not_modified (requests : list (request V))
    (utcnow utcnow' : datetime) (today today' : Z)
    (if_modified_since : option datetime) (p : page V) :
  current_status utcnow today if_modified_since
    (store (serve requests empty_conn)) = Rendered p ->
  valid_datetime (last_modified p) /\ microsecond (last_modified p) = 0 /\
  current_status utcnow' today' (Some (last_modified p))
    (store (serve requests empty_conn)) = NotModified.
Proof.
  set (t := store (serve requests empty_conn)).
  assert (Hnorm : readings_normalised t)
    by apply (serve_store_invariant requests empty_conn
                empty_store_invariant).
  unfold current_status. intros E.
  destruct (select_latest Temperature t) as [temp |] eqn:Hsel.
  2: { destruct if_modified_since; discriminate. }
  assert (Hl : last_modified p = when_recorded (cols temp)).
  { destruct if_modified_since as [cond |],
      (select_latest Pressure t) as [pres |]; try discriminate;
      try destruct (dt_ltb cond (when_recorded (cols temp)));
      try destruct (dt_ltb cond (when_recorded (cols pres)));
      try discriminate; injection E as <-; reflexivity. }
  assert (Hin : In temp (readings_of Temperature t)).
  { destruct (readings_of Temperature t) as [| x l] eqn:Er.
    - apply select_latest_none in Er. congruence.
    - rewrite <- Er.
      destruct (select_latest_max Temperature t) as (r & Hr & Hinr & _);
        [rewrite Er; discriminate | congruence]. }
  destruct (Hnorm Temperature temp Hin) as (Hv & _ & Hu).
  rewrite Hl. split; [exact Hv |]. split; [exact Hu |].
  rewrite dt_ltb_leb.
  destruct (dt_leb_total (when_recorded (cols temp))
              (when_recorded (cols temp))) as [H | H];
    rewrite H; reflexivity.
Qed.

(** ** Recomputation and correction *)

Lemma update_daily_store q (w : datetime) (t : tables V)
    (l l' : list (tables V)) :
  store (fst (update_daily q w (mkconn t l)))
  = store (fst (update_daily q w (mkconn t l'))).
Proof.
  rewrite !update_daily_unfold. cbn [store].
  destruct (order_by_desc _); reflexivity.
Qed.

(** X15.  In a state reached from the empty database, the recomputation of a
    day changes no reading, no daily row of the other quantity and no daily
    row of another day, and it adds at most one daily row. *)
Theorem recompute_touches_one_day (requests : list (request V))
    (q : quantity) (w : datetime) :
  let c := serve requests empty_conn in
  let c' := fst (update_daily q w c) in
  (forall q', readings_of q' (store c') = readings_of q' (store c)) /\
  (forall q', q' <> q ->
     dailies_of q' (store c') = dailies_of q' (store c)) /\
  filter (fun r => negb (day (cols r) =? date w)) (dailies_of q (store c'))
  = filter (fun r => negb (day (cols r) =? date w))
           (dailies_of q (store c)) /\
  (length (dailies_of q (store c')) <= S (length (dailies_of q (store c))))%nat.
Proof.
  intros c c'.
  pose proof (serve_invariant requests empty_conn empty_invariant) as Hinv.
  fold c in Hinv. destruct (Hinv q) as (Hid & _ & _).
  split; [intros q'; apply update_daily_readings |].
  split; [intros q' Hq; now apply update_daily_dailies_other |].
  unfold c'. rewrite update_daily_unfold.
  destruct (order_by_desc (day_readings q w (store c))) as [| hi rest];
    [split; [reflexivity | cbn [fst]; lia] |].
  cbn [fst store]. rewrite dailies_with_dailies.
  set (data := daily_data w hi (hi :: rest)).
  destruct (hd_error (filter (fun r => day (cols r) =? date w)
                             (dailies_of q (store c)))) as [e |] eqn:He.
  - destruct (upsert_existing (date w) data _ e Hid He)
      as (l1 & l2 & Hrows & ->).
    rewrite Hrows, !filter_app, !length_app. simpl.
    apply hd_error_filter_some in He. destruct He as [_ Hde].
    rewrite Hde. unfold data at 1. cbn [daily_data day].
    rewrite Z.eqb_refl. simpl. split; [reflexivity | lia].
  - destruct (upsert_missing (date w) data _ He) as [-> _].
    rewrite filter_app, length_app. simpl.
    unfold data at 1. cbn [daily_data day]. rewrite Z.eqb_refl. simpl.
    split; [apply app_nil_r | lia].
Qed.

(** X16.  To recompute a day a second time changes nothing in the tables,
    whatever they hold. *)
Theorem recompute_twice (q : quantity) (w : datetime) (c : conn V) :
  store (fst (update_daily q w (fst (update_daily q w c))))
  = store (fst (update_daily q w c)).
Proof.
  pose proof (update_daily_up_to_date q w c) as H. unfold up_to_date in H.
  destruct (fst (update_daily q w c)) as [t l]. cbn [store] in *.
  rewrite (update_daily_store q w t l []). exact H.
Qed.


(** ** Days and their rows *)







End Extras.

(** X18.  For a positive resolution the normaliser leaves a timestamp as it
    is exactly when the timestamp is to the minute and its minute is a
    multiple of the resolution. *)
Theorem normalise_when_fixed (when : datetime) (r : Z) :
  valid_datetime when -> 0 < r ->
  (normalise_when when r = Ok when <->
   second when = 0 /\ microsecond when = 0 /\ minute when mod r = 0).
Proof.
  intros Hv Hr. rewrite normalise_when_ok by lia. split.
  - intros E. injection E as E.
    assert (Hs : second when = 0 /\ microsecond when = 0).
    { rewrite <- E. split; reflexivity. }
    split; [apply Hs |]. split; [apply Hs |].
    apply (f_equal abs_minutes) in E. rewrite abs_minutes_add in E.
    unfold abs_minutes in E; simpl in E.
    assert (Em : minute when = py_round_div (minute when) r * r) by lia.
    rewrite Em at 1. apply Z.mod_mul. lia.
  - intros (Hs & Hu & Hm).
    apply Z.mod_divide in Hm; [| lia]. destruct Hm as [j Hj].
    assert (E0 : replace_second0 when = when).
    { destruct when as [o h m s u]. simpl in *. subst. reflexivity. }
    rewrite E0, Hj, py_round_div_multiple, Z.sub_diag by lia.
    f_equal. now apply add_minutes_0.
Qed.

(** ** The further properties at work *)



(** The pressure of 09:00 is the latest after its ingestion. *)
Lemma post_then_latest_witness :
  post Pressure (at_ 0 0) (reading_json (at_ 9 0) 102%float) one_pressure
    = (two_pressures, Ok 2) /\
  normalized_when Pressure (at_ 0 0) (reading_json (at_ 9 0) 102%float)
    = Ok (at_ 9 0) /\
  (forall x, In x (readings_of Pressure (store one_pressure)) ->
             dt_ltb (when_recorded (cols x)) (at_ 9 0) = true) /\
  exists r, latest_get Pressure two_pressures = (two_pressures, Ok r) /\
            rowid r = 2 /\ when_recorded (cols r) = at_ 9 0.
Proof.
  assert (H1 : post Pressure (at_ 0 0) (reading_json (at_ 9 0) 102%float)
                 one_pressure = (two_pressures, Ok 2))
    by (vm_compute; reflexivity).
  assert (H2 : normalized_when Pressure (at_ 0 0)
                 (reading_json (at_ 9 0) 102%float) = Ok (at_ 9 0))
    by (vm_compute; reflexivity).
  assert (H3 : forall x, In x (readings_of Pressure (store one_pressure)) ->
                         dt_ltb (when_recorded (cols x)) (at_ 9 0) = true).
  { intros x Hx. vm_compute in Hx. destruct Hx as [<- | []].
    vm_compute. reflexivity. }
  split; [exact H1 |]. split; [exact H2 |]. split; [exact H3 |].
  exact (post_then_latest Pressure (at_ 0 0)
           (reading_json (at_ 9 0) 102%float) one_pressure two_pressures 2
           (at_ 9 0) H1 H2 H3).
Defined.

(** 13:37:42 is in the quarter of 13:30. *)
Lemma quarter_hour_floor_witness :
  valid_datetime (mkdatetime 738000 13 37 42 5) /\
  quarter_hour (mkdatetime 738000 13 37 42 5) = at_ 13 30 /\
  minute (quarter_hour (mkdatetime 738000 13 37 42 5))
  <= minute (mkdatetime 738000 13 37 42 5)
  < minute (quarter_hour (mkdatetime 738000 13 37 42 5)) + 15.
Proof.
  assert (H : valid_datetime (mkdatetime 738000 13 37 42 5))
    by (unfold valid_datetime; simpl; lia).
  split; [exact H |]. split; [reflexivity |].
  exact (proj1 (proj2 (proj2 (proj2 (proj2 (proj2 (proj2 (proj2
           (quarter_hour_floor (mkdatetime 738000 13 37 42 5) H))))))))).
Defined.

(** The charts of the status page of the next morning leave out the reading
    of 00:15, which is more than a day old. *)
Lemma current_status_charts_witness :
  current_status (mkdatetime 738001 5 7 42 0) 738001 None
    (store both_readings) = Rendered status_page /\
  map rowid (temperature_24 status_page) = [2; 3] /\
  Permutation (temperature_24 status_page)
    (filter (fun r => dt_leb (add_days
                                (quarter_hour (mkdatetime 738001 5 7 42 0))
                                (-1))
                             (when_recorded (cols r)))
            (readings_of Temperature (store both_readings))).
Proof.
  assert (H : current_status (mkdatetime 738001 5 7 42 0) 738001 None
                (store both_readings) = Rendered status_page)
    by (vm_compute; reflexivity).
  split; [exact H |]. split; [vm_compute; reflexivity |].
  exact (proj2 (proj1
           (current_status_charts (mkdatetime 738001 5 7 42 0) 738001 None
              (store both_readings) status_page H))).
Defined.

(** The status page of the next morning is not modified an hour later. *)
Lemma last_modified_not_modified_witness :
  current_status (mkdatetime 738001 5 7 42 0) 738001 None
    (store (serve both_requests empty_conn)) = Rendered status_page /\
  valid_datetime (last_modified status_page) /\
  microsecond (last_modified status_page) = 0 /\
  current_status (mkdatetime 738001 6 7 42 0) 738001
    (Some (last_modified status_page))
    (store (serve both_requests empty_conn)) = NotModified.
Proof.
  assert (H : current_status (mkdatetime 738001 5 7 42 0) 738001 None
                (store (serve both_requests empty_conn))
              = Rendered status_page)
    by (vm_compute; reflexivity).
  split; [exact H |].
  exact (last_modified_not_modified both_requests
           (mkdatetime 738001 5 7 42 0) (mkdatetime 738001 6 7 42 0)
           738001 738001 None status_page H).
Defined.

(** 12:30 stays where it is at the resolution 15. *)
Lemma normalise_when_fixed_witness :
  valid_datetime (at_ 12 30) /\ 0 < 15 /\
  (normalise_when (at_ 12 30) 15 = Ok (at_ 12 30) <->
   second (at_ 12 30) = 0 /\ microsecond (at_ 12 30) = 0 /\
   minute (at_ 12 30) mod 15 = 0).
Proof.
  assert (H1 : valid_datetime (at_ 12 30))
    by (unfold valid_datetime; simpl; lia).
  assert (H2 : 0 < 15) by lia.
  split; [exact H1 |]. split; [exact H2 |].
  exact (normalise_when_fixed (at_ 12 30) 15 H1 H2).
Defined.

(** The daily row of the three temperatures: high 20 at 06:00, low 10 at
    00:15, median and mean 15. *)
Lemma rollups_follow_readings_witness :
  In (mkrow 1 (mkdaily 738000 20%float 10%float 15%float 15%float
                 (at_ 6 0) (at_ 0 15) (at_ 12 0)))
     (dailies_of Temperature (store (serve both_requests empty_conn))) /\
  exists sorted hi lo med,
    sorted
    = order_by_desc
        (day_readings Temperature (mkdatetime 738000 0 0 0 0)
           (store (serve both_requests empty_conn))) /\
    hd_error sorted = Some hi /\ last sorted hi = lo /\
    nth_error sorted (length sorted / 2) = Some med /\
    mkdaily 738000 20%float 10%float 15%float 15%float
      (at_ 6 0) (at_ 0 15) (at_ 12 0)
    = mkdaily 738000 (value (cols hi)) (value (cols lo))
        (vdiv (fold_left (fun acc t => vadd acc (value (cols t)))
                         sorted vzero)
              (Z.of_nat (length sorted)))
        (value (cols med))
        (when_recorded (cols hi)) (when_recorded (cols lo))
        (when_recorded (cols med)) /\
    (forall x, x = hi \/ x = lo \/ x = med ->
       In x (readings_of Temperature
               (store (serve both_requests empty_conn))) /\
       date (when_recorded (cols x)) = 738000).
Proof.
  assert (H : In (mkrow 1 (mkdaily 738000 20%float 10%float 15%float
                             15%float (at_ 6 0) (at_ 0 15) (at_ 12 0)))
                 (dailies_of Temperature
                    (store (serve both_requests empty_conn))))
    by (vm_compute; left; reflexivity).
  split; [exact H |].
  exact (rollups_follow_readings both_requests Temperature
           (mkrow 1 (mkdaily 738000 20%float 10%float 15%float 15%float
                       (at_ 6 0) (at_ 0 15) (at_ 12 0))) H).
Defined.

